(** * boja: the training driver [vision/train/train.py]

    A shallow embedding of [main] and [get_newest_manifest_path] with the
    Python primitives they rely on, followed by the properties of the
    driver: the train/test split, label loading, manifest discovery, the
    remote-storage gate and the per-epoch metric histories. *)

From Stdlib Require Import ZArith String Ascii Bool Lia.
From Stdlib Require Import List Permutation.
From Stdlib Require Import DecimalString SpecFloat.
Import ListNotations.

Local Open Scope string_scope.
Local Open Scope Z_scope.

(** ** Python numbers: [int(0.2 * n)]

    [0.2 * len(dataset)] converts the integer to a binary64 float, multiplies
    it by the binary64 constant nearest to 0.2 and rounds the product to
    nearest, ties to even; [int] then truncates towards zero.  A finite
    non-negative float is kept as a pair [(m, e)] standing for [m * 2^e]. *)
Module Float64.

Definition prec : Z := 53.

(** Round the non-negative dyadic [m * 2^e] to [prec] significant bits. *)
Definition round_nearest_even (m e : Z) : Z * Z :=
  let d := Z.log2 m + 1 - prec in
  if d <=? 0 then (m, e)
  else
    let q := Z.shiftr m d in
    let r := Z.land m (Z.ones d) in
    let half := Z.shiftl 1 (d - 1) in
    if (half <? r) || ((r =? half) && Z.odd q)
    then (q + 1, e + d)
    else (q, e + d).

(** [float(n)] for an integer [0 <= n]. *)
Definition of_int (n : Z) : Z * Z := round_nearest_even n 0.

(** The literal [0.2], i.e. 0x1.999999999999ap-3. *)
Definition lit_0_2 : Z * Z := (7205759403792794, -55).

Definition mul (x y : Z * Z) : Z * Z :=
  round_nearest_even (fst x * fst y) (snd x + snd y).

(** [int(x)] for a non-negative float: truncation. *)
Definition to_int (x : Z * Z) : Z :=
  if 0 <=? snd x then Z.shiftl (fst x) (snd x)
  else Z.shiftr (fst x) (- snd x).

(** The same number in the standard library's IEEE 754 model. *)
Definition to_spec (x : Z * Z) : spec_float :=
  match fst x with
  | Zpos p => S754_finite false p (snd x)
  | _ => S754_zero false
  end.

(** Whether [0.2 * float(n)] as computed here is the product the
    library's binary64 multiplication gives. *)
Definition agrees_with_ieee (n : Z) : bool :=
  match SFcompare
          (SFmul 53 1024 (to_spec lit_0_2) (binary_normalize 53 1024 n 0 false))
          (to_spec (mul lit_0_2 (of_int n))) with
  | Some Eq => true
  | _ => false
  end.

End Float64.

(** [int(0.2 * n)], line 175. *)
Definition int_0_2_times (n : Z) : Z :=
  Float64.to_int (Float64.mul Float64.lit_0_2 (Float64.of_int n)).

(** ** Python lists: slices with one bound *)

(** Normalisation of a slice bound against a list of length [len]:
    a negative bound counts from the end, and the result is clamped
    to [0 .. len]. *)
Definition slice_bound (len i : Z) : nat :=
  Z.to_nat (if i <? 0 then Z.max (i + len) 0 else Z.min i len).

(** [l[:stop]] *)
Definition slice_to {A} (l : list A) (stop : Z) : list A :=
  firstn (slice_bound (Z.of_nat (length l)) stop) l.

(** [l[start:]] *)
Definition slice_from {A} (l : list A) (start : Z) : list A :=
  skipn (slice_bound (Z.of_nat (length l)) start) l.

(** Lines 175-178 of [main]: the index lists handed to the two [Subset]s. *)
Definition num_test_of (len_dataset : nat) : Z :=
  int_0_2_times (Z.of_nat len_dataset).

Definition split_indices (len_dataset : nat) (indices : list nat)
  : list nat * list nat :=
  let num_test := num_test_of len_dataset in
  (slice_to indices (-1 * num_test), slice_from indices (-1 * num_test)).

(** The spec's reading of the test share, [ceil(0.2 * n)], kept apart from
    the code's [num_test_of] for comparison. *)
Definition ceil_fifth (n : nat) : nat := Nat.div (n + 4) 5.

(** ** Python strings

    A [str] is kept as a [string] of code points below 256. *)
Module Py.

(** [str(n)] and the [%d] conversion of an integer. *)
Definition str_of_int (z : Z) : string := NilZero.string_of_int (Z.to_int z).

(** [str(x)] of a string flag that may be unset. *)
Definition str_of_opt (o : option string) : string :=
  match o with Some s => s | None => "None" end.

(** [sep.join(parts)] *)
Definition join (sep : string) (parts : list string) : string :=
  String.concat sep parts.

(** [s.endswith(suffix)] *)
Definition endswith (s suffix : string) : bool :=
  let n := String.length s in
  let k := String.length suffix in
  (k <=? n)%nat && String.eqb (substring (n - k) k s) suffix.

(** [os.path.join(a, b)] on a POSIX system. *)
Definition os_path_join (a b : string) : string :=
  if prefix "/" b then b
  else if String.eqb a "" || endswith a "/" then a ++ b
  else a ++ "/" ++ b.

(** The line boundaries of [str.splitlines] among the code points
    below 256; a carriage return directly followed by a line feed is a
    single boundary. *)
Definition is_linebreak (c : ascii) : bool :=
  match nat_of_ascii c with
  | 10 | 11 | 12 | 13 | 28 | 29 | 30 | 133 => true
  | _ => false
  end%nat.

Definition is_cr (c : ascii) : bool := Ascii.eqb c "013".
Definition is_lf (c : ascii) : bool := Ascii.eqb c "010".

Fixpoint rev_string (s acc : string) : string :=
  match s with
  | EmptyString => acc
  | String c r => rev_string r (String c acc)
  end.

(** [cur] holds the characters of the line being read, last first. *)
Fixpoint splitlines_from (cur s : string) : list string :=
  match s with
  | EmptyString =>
      match cur with
      | EmptyString => []
      | _ => [rev_string cur ""]
      end
  | String c r =>
      if is_cr c then
        match r with
        | String c' r' =>
            if is_lf c' then rev_string cur "" :: splitlines_from "" r'
            else rev_string cur "" :: splitlines_from "" r
        | EmptyString => rev_string cur "" :: splitlines_from "" r
        end
      else if is_linebreak c then rev_string cur "" :: splitlines_from "" r
      else splitlines_from (String c cur) r
  end.

(** [s.splitlines()] *)
Definition splitlines (s : string) : list string := splitlines_from "" s.

(** [l.insert(i, x)] for [0 <= i]. *)
Definition list_insert {A} (i : nat) (x : A) (l : list A) : list A :=
  (firstn i l ++ x :: skipn i l)%list.

(** [range(n)] *)
Definition range (n : Z) : list nat := seq 0 (Z.to_nat n).

End Py.

(** ** [_file_utils.get_highest_numbered_file] *)
Module FileUtils.

Definition is_digit (c : ascii) : bool :=
  ((48 <=? nat_of_ascii c) && (nat_of_ascii c <=? 57))%nat.

Fixpoint read_digits (acc : N) (s : string) : N :=
  match s with
  | String c r =>
      if is_digit c
      then read_digits (10 * acc + N.of_nat (nat_of_ascii c - 48)) r
      else acc
  | EmptyString => acc
  end.

(** The integer a file name embeds: its first run of decimal digits. *)
Fixpoint embedded_number (name : string) : option N :=
  match name with
  | EmptyString => None
  | String c r =>
      if is_digit c then Some (read_digits 0 name) else embedded_number r
  end.

(** [file] is of the type looked for and embeds the number [n]. *)
Definition is_numbered (file_type file : string) (n : N) : Prop :=
  Py.endswith file file_type = true /\ embedded_number file = Some n.

(** One step of the scan: [best] is the highest number seen so far with
    the file that carries it. *)
Definition scan_step (file_type : string) (best : option (N * string))
    (file : string) : option (N * string) :=
  if Py.endswith file file_type then
    match embedded_number file, best with
    | Some n, Some (m, _) => if (m <? n)%N then Some (n, file) else best
    | Some n, None => Some (n, file)
    | None, _ => best
    end
  else best.

(** Modelled from the spec: [get_highest_numbered_file] of
    [vision/_file_utils.py], which train.py imports and whose body is not
    part of the sources at hand.  Per the spec it "scans a directory for
    files of a fixed type, extracts the highest embedded numeric
    identifier, and returns that file's path, or a sentinel none found".
    [listing] is the directory's content as [os.listdir] gives it. *)
Definition get_highest_numbered_file (listing : list string)
    (dir_path file_type : string) : option string :=
  match fold_left (scan_step file_type) listing None with
  | Some (_, file) => Some (Py.os_path_join dir_path file)
  | None => None
  end.

End FileUtils.

(** ** The driver *)

(** The constants train.py imports from [vision/_settings.py]. *)
Record settings := {
  IMAGE_DIR_NAME : string;
  ANNOTATION_DIR_NAME : string;
  MANIFEST_DIR_NAME : string;
  MODEL_STATE_DIR_NAME : string;
  IMAGE_FILE_TYPE : string;
  ANNOTATION_FILE_TYPE : string;
  MANIFEST_FILE_TYPE : string;
  MODEL_STATE_FILE_TYPE : string;
  LABEL_FILE_NAME : string;
  LOGS_DIR_NAME : string
}.

(** [flags.FLAGS], lines 47-63. *)
Record flags := {
  local_data_dir : string;
  s3_bucket_name : option string;
  s3_data_dir : string;
  network : string;
  num_epochs : Z
}.

Definition AVERAGE_PRECISION_STAT_INDEX : nat := 0.
Definition AVERAGE_RECALL_STAT_INDEX : nat := 8.

(** What [main] reads of the local disk. *)
Record filesystem := {
  isfile : string -> bool;
  read_text : string -> string;
  listdir : string -> list string
}.

Inductive exn := IndexError.

(** How a call of [main] ends: with the value it returns ([None] is
    Python's [None]) or with an exception nobody catches. *)
Inductive outcome :=
| Returned (value : option Z)
| Raised (e : exn).

(** [app.run(main)] hands [main]'s value to [sys.exit]. *)
Definition exit_code (o : outcome) : Z :=
  match o with
  | Returned None => 0
  | Returned (Some z) => z
  | Raised _ => 1
  end.

(** What a step of [main] comes to: a value to go on with, a [return]
    out of [main], or an exception. *)
Inductive res (A : Type) :=
| Val (a : A)
| Return (value : option Z)
| Raise (e : exn).
Arguments Val {A} a.
Arguments Return {A} value.
Arguments Raise {A} e.

Section Driver.

(** The entries of an evaluation statistics vector. *)
Context {V : Type}.
Variable cfg : settings.

(** The calls [main] makes on its collaborators, with the arguments that
    matter downstream.  Building transforms, the device, the optimizer and
    the scheduler touches nothing outside the process and is left out. *)
Inductive event :=
| Print (line : string)
| S3BucketExists (bucket : option string)
| S3DownloadDir (bucket : option string) (s3_dir local_dir file_type : string)
| S3UploadFiles (bucket : option string) (files : list string) (s3_dir : string)
| NewBojaDataSet (image_dir annotation_dir : string)
    (manifest : option string) (train : bool) (labels : list string)
| NewSubset (train : bool) (indices : list nat)
| NewDataLoader (train : bool) (shuffle : bool)
| NewModel (net : string) (num_classes : nat)
| TrainOneEpoch (epoch : nat)
| LrSchedulerStep
| Evaluate (epoch : nat)
| CreateOutputDir (path : string)
| TorchSave (path : string)
| PltPlot (ys : list V) (label : string)
| PltLegend
| PltTitle (title : string)
| PltSavefig (path : string).

(** Everything outside [main] that a run depends on.  The collaborators
    are taken at their contract: each call returns. *)
Record world := {
  FLAGS : flags;
  time_time : Z;
  disk : filesystem;
  s3_bucket_exists : option string -> bool;
  s3_download_dir :
    option string -> string -> string -> string -> filesystem -> filesystem;
  cuda_is_available : bool;
  len_BojaDataSet :
    string -> string -> option string -> list string -> nat;
  randperm : nat -> list nat;
  coco_stats : nat -> list V
}.

(** *** Effects: the disk is threaded through and the calls are logged. *)
Definition M (A : Type) : Type := filesystem -> res A * filesystem * list event.

Definition ret {A} (a : A) : M A := fun fs => (Val a, fs, []).

Definition bind {A B} (m : M A) (k : A -> M B) : M B :=
  fun fs =>
    match m fs with
    | (Val a, fs1, t1) =>
        match k a fs1 with
        | (r, fs2, t2) => (r, fs2, (t1 ++ t2)%list)
        end
    | (Return v, fs1, t1) => (Return v, fs1, t1)
    | (Raise e, fs1, t1) => (Raise e, fs1, t1)
    end.

Notation "x <- m ;; k" := (bind m (fun x => k))
  (at level 61, m at next level, right associativity).
Notation "m ;; k" := (bind m (fun _ => k))
  (at level 61, right associativity).
Notation "' p <- m ;; k" := (bind m (fun p => k))
  (at level 61, p pattern, m at next level, right associativity).

Definition emit (e : event) : M unit := fun fs => (Val tt, fs, [e]).
Definition print (line : string) : M unit := emit (Print line).
Definition return_none {A} : M A := fun fs => (Return None, fs, []).
Definition raise {A} (e : exn) : M A := fun fs => (Raise e, fs, []).
Definition get_fs : M filesystem := fun fs => (Val fs, fs, []).
Definition set_fs (fs' : filesystem) : M unit := fun _ => (Val tt, fs', []).
Definition when (b : bool) (m : M unit) : M unit := if b then m else ret tt.

(** [xs[i]] *)
Definition index (xs : list V) (i : nat) : M V :=
  match nth_error xs i with
  | Some x => ret x
  | None => raise IndexError
  end.

Variable w : world.

Definition call_s3_bucket_exists (bucket : option string) : M bool :=
  emit (S3BucketExists bucket) ;; ret (s3_bucket_exists w bucket).

Definition call_s3_download_dir (bucket : option string)
    (s3_dir local_dir file_type : string) : M unit :=
  emit (S3DownloadDir bucket s3_dir local_dir file_type) ;;
  fs <- get_fs ;;
  set_fs (s3_download_dir w bucket s3_dir local_dir file_type fs).

Definition os_path_isfile (path : string) : M bool :=
  fs <- get_fs ;; ret (isfile fs path).

Definition open_read (path : string) : M string :=
  fs <- get_fs ;; ret (read_text fs path).

(** Lines 74-75. *)
Definition get_newest_manifest_path (manifest_dir_path : string)
  : M (option string) :=
  fs <- get_fs ;;
  ret (FileUtils.get_highest_numbered_file
         (listdir fs manifest_dir_path) manifest_dir_path
         (MANIFEST_FILE_TYPE cfg)).

Definition bucket : option string := s3_bucket_name (FLAGS w).
Definition data_dir : string := local_data_dir (FLAGS w).

(** Lines 82-120: the bucket check and the three downloads; the value is
    [use_s3] as the rest of [main] sees it. *)
Definition remote_sync : M bool :=
  let use_s3 := match bucket with Some _ => true | None => false end in
  use_s3 <-
    (if use_s3 then
       found <- call_s3_bucket_exists bucket ;;
       if negb found then
         print ("Bucket: " ++ Py.str_of_opt bucket
                ++ " either does not exist or you do not have access to it") ;;
         ret false
       else
         print ("Bucket: " ++ Py.str_of_opt bucket
                ++ " exists and you have access to it") ;;
         ret use_s3
     else ret use_s3) ;;
  when use_s3
    (call_s3_download_dir bucket
       (Py.join "/" [s3_data_dir (FLAGS w); IMAGE_DIR_NAME cfg])
       (Py.os_path_join data_dir (IMAGE_DIR_NAME cfg))
       (IMAGE_FILE_TYPE cfg) ;;
     call_s3_download_dir bucket
       (Py.join "/" [s3_data_dir (FLAGS w); ANNOTATION_DIR_NAME cfg])
       (Py.os_path_join data_dir (ANNOTATION_DIR_NAME cfg))
       (ANNOTATION_FILE_TYPE cfg) ;;
     call_s3_download_dir bucket
       (Py.join "/" [s3_data_dir (FLAGS w); MANIFEST_DIR_NAME cfg])
       (Py.os_path_join data_dir (MANIFEST_DIR_NAME cfg))
       (MANIFEST_FILE_TYPE cfg)) ;;
  ret use_s3.

Definition label_file_path : string :=
  Py.os_path_join data_dir (LABEL_FILE_NAME cfg).

(** Lines 122-135: the label list with the background class in front. *)
Definition load_labels : M (list string) :=
  present <- os_path_isfile label_file_path ;;
  if negb present then
    print ("Missing file " ++ label_file_path) ;; return_none
  else
    text <- open_read label_file_path ;;
    let labels := Py.splitlines text in
    if (List.length labels =? 0)%nat then
      print ("No label categories found in " ++ label_file_path) ;;
      return_none
    else ret (Py.list_insert 0 "background" labels).

Definition manifest_dir : string :=
  Py.os_path_join data_dir (MANIFEST_DIR_NAME cfg).

(** Lines 137-145. *)
Definition find_manifest : M (option string) :=
  newest_manifest_file <- get_newest_manifest_path manifest_dir ;;
  match newest_manifest_file with
  | None => print ("Cannot find a manifest file in: " ++ manifest_dir)
  | Some _ => ret tt
  end ;;
  ret newest_manifest_file.

Definition image_dir : string := Py.os_path_join data_dir (IMAGE_DIR_NAME cfg).
Definition annotation_dir : string :=
  Py.os_path_join data_dir (ANNOTATION_DIR_NAME cfg).

(** Lines 148-196: both datasets, the split and the two loaders; the value
    is [num_classes]. *)
Definition build_datasets (labels : list string)
    (newest_manifest_file : option string) : M nat :=
  print ("Using device: " ++ " "
         ++ (if cuda_is_available w then "cuda" else "cpu")) ;;
  let num_classes := List.length labels in
  emit (NewBojaDataSet image_dir annotation_dir newest_manifest_file true labels) ;;
  emit (NewBojaDataSet image_dir annotation_dir newest_manifest_file false labels) ;;
  let len_dataset :=
    len_BojaDataSet w image_dir annotation_dir newest_manifest_file labels in
  let indices := randperm w len_dataset in
  let '(train_indices, test_indices) := split_indices len_dataset indices in
  emit (NewSubset true train_indices) ;;
  emit (NewSubset false test_indices) ;;
  print ("Training dataset size: "
         ++ Py.str_of_int (Z.of_nat (List.length train_indices))
         ++ ", Testing dataset size: "
         ++ Py.str_of_int (Z.of_nat (List.length test_indices))) ;;
  emit (NewDataLoader true true) ;;
  emit (NewDataLoader false false) ;;
  ret num_classes.

(** Lines 217-227: the loop body over the epochs still to run, with the two
    histories as they stand. *)
Fixpoint run_epochs (epochs : list nat)
    (average_persision average_recall : list V) : M (list V * list V) :=
  match epochs with
  | [] => ret (average_persision, average_recall)
  | epoch :: later =>
      emit (TrainOneEpoch epoch) ;;
      emit LrSchedulerStep ;;
      emit (Evaluate epoch) ;;
      let stats := coco_stats w epoch in
      p <- index stats AVERAGE_PRECISION_STAT_INDEX ;;
      r <- index stats AVERAGE_RECALL_STAT_INDEX ;;
      run_epochs later (average_persision ++ [p])%list (average_recall ++ [r])%list
  end.

(** Lines 198-227. *)
Definition train (num_classes : nat) : M (list V * list V) :=
  emit (NewModel (network (FLAGS w)) num_classes) ;;
  print ("Training for " ++ Py.str_of_int (num_epochs (FLAGS w)) ++ " epochs") ;;
  run_epochs (Py.range (num_epochs (FLAGS w))) [] [].

Definition run_name (start_time : Z) : string :=
  Py.str_of_int start_time ++ "-" ++ network (FLAGS w).

Definition model_state_file_path (start_time : Z) : string :=
  Py.os_path_join (Py.os_path_join data_dir (MODEL_STATE_DIR_NAME cfg))
    (run_name start_time ++ "." ++ MODEL_STATE_FILE_TYPE cfg).

Definition log_file_path (start_time : Z) : string :=
  Py.os_path_join (Py.os_path_join data_dir (LOGS_DIR_NAME cfg))
    (run_name start_time ++ ".jpg").

(** Lines 229-258. *)
Definition write_artifacts (start_time : Z)
    (average_persision average_recall : list V) : M unit :=
  emit (CreateOutputDir (Py.os_path_join data_dir (MODEL_STATE_DIR_NAME cfg))) ;;
  emit (TorchSave (model_state_file_path start_time)) ;;
  print ("Model state saved at: " ++ model_state_file_path start_time) ;;
  emit (PltPlot average_persision "AP: IoU=0.50:0.95 maxDets=100") ;;
  emit (PltPlot average_recall "AR: IoU=0.50:0.95 maxDets=100") ;;
  emit PltLegend ;;
  emit (PltTitle ("Evaluation data from " ++ run_name start_time)) ;;
  emit (CreateOutputDir (Py.os_path_join data_dir (LOGS_DIR_NAME cfg))) ;;
  emit (PltSavefig (log_file_path start_time)) ;;
  print ("Log file saved at: " ++ log_file_path start_time).

(** Lines 260-273. *)
Definition publish (use_s3 : bool) (start_time : Z) : M unit :=
  when use_s3
    (emit (S3UploadFiles bucket [model_state_file_path start_time]
             (Py.join "/" [s3_data_dir (FLAGS w); MODEL_STATE_DIR_NAME cfg])) ;;
     emit (S3UploadFiles bucket [log_file_path start_time]
             (Py.join "/" [s3_data_dir (FLAGS w); LOGS_DIR_NAME cfg]))) ;;
  print "Training complete".

(** Lines 78-273. *)
Definition main : M unit :=
  let start_time := time_time w in
  use_s3 <- remote_sync ;;
  labels <- load_labels ;;
  newest_manifest_file <- find_manifest ;;
  num_classes <- build_datasets labels newest_manifest_file ;;
  '(average_persision, average_recall) <- train num_classes ;;
  write_artifacts start_time average_persision average_recall ;;
  publish use_s3 start_time.

(** A whole run from the disk as it is found: how it ends and what it
    called, in order.  Falling off the end of [main] returns [None]. *)
Definition run_main : outcome * list event :=
  match main (disk w) with
  | (Val _, _, t) => (Returned None, t)
  | (Return v, _, t) => (Returned v, t)
  | (Raise e, _, t) => (Raised e, t)
  end.

(** The disk as [main] finds it when it looks for the label file. *)
Definition disk_after_sync : filesystem := snd (fst (remote_sync (disk w))).

End Driver.

Arguments world V : clear implicits.
Arguments event V : clear implicits.

(** Events that reach remote storage. *)
Definition is_network_io {V} (e : event V) : bool :=
  match e with
  | S3BucketExists _ | S3DownloadDir _ _ _ _ | S3UploadFiles _ _ _ => true
  | _ => false
  end.

(** Events that construct a dataset or write an artifact. *)
Definition is_dataset_construction {V} (e : event V) : bool :=
  match e with
  | NewBojaDataSet _ _ _ _ _ | NewSubset _ _ => true
  | _ => false
  end.

Definition is_artifact_write {V} (e : event V) : bool :=
  match e with
  | TorchSave _ | PltSavefig _ => true
  | _ => false
  end.

(** Events of the remote sync step, lines 82-120. *)
Definition is_sync_event {V} (e : event V) : bool :=
  match e with
  | Print _ | S3BucketExists _ | S3DownloadDir _ _ _ _ => true
  | _ => false
  end.

(** Events of the loop, lines 217-227. *)
Definition is_epoch_event {V} (e : event V) : bool :=
  match e with
  | TrainOneEpoch _ | LrSchedulerStep | Evaluate _ => true
  | _ => false
  end.

(** What a step logs when started on the disk [fs]. *)
Definition log_of {V A} (m : @M V A) (fs : filesystem) : list (event V) :=
  snd (m fs).

(** Whether [main] gets to its last line. *)
Definition runs_to_end {V} (cfg : settings) (w : world V) : bool :=
  match main cfg w (disk w) with
  | (Val _, _, _) => true
  | _ => false
  end.

(** The run saves the weights and the plot under the names of lines
    234-255. *)
Definition writes_artifacts {V} (cfg : settings) (w : world V) : Prop :=
  In (TorchSave (model_state_file_path cfg w (time_time w))) (snd (run_main cfg w))
  /\ In (PltSavefig (log_file_path cfg w (time_time w))) (snd (run_main cfg w)).

(** The same world with the bucket flag unset. *)
Definition without_bucket {V} (w : world V) : world V :=
  {| FLAGS := {| local_data_dir := local_data_dir (FLAGS w);
                 s3_bucket_name := None;
                 s3_data_dir := s3_data_dir (FLAGS w);
                 network := network (FLAGS w);
                 num_epochs := num_epochs (FLAGS w) |};
     time_time := time_time w;
     disk := disk w;
     s3_bucket_exists := s3_bucket_exists w;
     s3_download_dir := s3_download_dir w;
     cuda_is_available := cuda_is_available w;
     len_BojaDataSet := len_BojaDataSet w;
     randperm := randperm w;
     coco_stats := coco_stats w |}.

(** The split as the spec words it: the first [N - ceil(0.2 N)] indices
    train, the trailing [ceil(0.2 N)] test. *)
Definition split_as_specified (len_dataset : nat) (indices : list nat) : Prop :=
  split_indices len_dataset indices
  = (firstn (len_dataset - ceil_fifth len_dataset) indices,
     skipn (len_dataset - ceil_fifth len_dataset) indices).

(** ** Sample runs *)
Module Sample.

Definition nl : string := String "010" "".

Definition config : settings :=
  {| IMAGE_DIR_NAME := "images";
     ANNOTATION_DIR_NAME := "annotations";
     MANIFEST_DIR_NAME := "manifests";
     MODEL_STATE_DIR_NAME := "modelstates";
     IMAGE_FILE_TYPE := "jpg";
     ANNOTATION_FILE_TYPE := "xml";
     MANIFEST_FILE_TYPE := "json";
     MODEL_STATE_FILE_TYPE := "pt";
     LABEL_FILE_NAME := "labels.txt";
     LOGS_DIR_NAME := "logs" |}.

Definition manifests : list string := ["a_3.json"; "a_10.json"; "a_2.json"].

(** A data directory with two labels and three manifests. *)
Definition full_disk : filesystem :=
  {| isfile := fun p => String.eqb p "data/labels.txt";
     read_text := fun p =>
       if String.eqb p "data/labels.txt" then "cat" ++ nl ++ "dog" ++ nl else "";
     listdir := fun d =>
       if String.eqb d "data/manifests" then manifests else [] |}.

(** The same directory without manifests. *)
Definition no_manifest_disk : filesystem :=
  {| isfile := isfile full_disk;
     read_text := read_text full_disk;
     listdir := fun _ => [] |}.

(** A data directory without a label file. *)
Definition empty_disk : filesystem :=
  {| isfile := fun _ => false;
     read_text := fun _ => "";
     listdir := fun _ => [] |}.

Definition local_flags (bucket_name : option string) : flags :=
  {| local_data_dir := "data";
     s3_bucket_name := bucket_name;
     s3_data_dir := "boja";
     network := "fasterrcnn_resnet50";
     num_epochs := 2 |}.

(** Statistics vectors of twelve entries, told apart by epoch. *)
Definition stats_of (epoch : nat) : list Z :=
  map (fun i => Z.of_nat (100 * epoch + i)) (seq 0 12).

Definition make (bucket_name : option string) (d : filesystem) : world Z :=
  {| FLAGS := local_flags bucket_name;
     time_time := 1590000000;
     disk := d;
     s3_bucket_exists := fun _ => false;
     s3_download_dir := fun _ _ _ _ fs => fs;
     cuda_is_available := false;
     len_BojaDataSet := fun _ _ _ _ => 6%nat;
     randperm := fun n => rev (seq 0 n);
     coco_stats := stats_of |}.

Definition local_run : world Z := make None full_disk.
Definition no_label_run : world Z := make None empty_disk.
Definition no_manifest_run : world Z := make None no_manifest_disk.
Definition bad_bucket_run : world Z := make (Some "my-bucket") full_disk.

End Sample.

(** ** The transform pipelines *)

(** The two transforms train.py composes; the flip carries its probability
    as the float [m * 2^e]. *)
Inductive transform :=
| ToTensor
| RandomHorizontalFlip (prob : Z * Z).

(** [Compose] keeps the transforms in the order given. *)
Definition Compose (transforms : list transform) : list transform := transforms.

(** Lines 66-71; [0.5] is the float [1 * 2^-1]. *)
Definition get_transform (train : bool) : list transform :=
  let transforms := [] in
  let transforms := (transforms ++ [ToTensor])%list in
  let transforms :=
    if train then (transforms ++ [RandomHorizontalFlip (1, -1)])%list
    else transforms in
  Compose transforms.

Definition is_random (t : transform) : bool :=
  match t with
  | RandomHorizontalFlip _ => true
  | ToTensor => false
  end.

(** ** More ways to look at a run *)

Definition is_upload {V} (e : event V) : bool :=
  match e with
  | S3UploadFiles _ _ _ => true
  | _ => false
  end.

(** The calls that read from the bucket. *)
Definition is_fetch {V} (e : event V) : bool :=
  match e with
  | S3BucketExists _ | S3DownloadDir _ _ _ _ => true
  | _ => false
  end.

(** What one pass of the loop body calls, lines 219-223. *)
Definition epoch_log {V} (epoch : nat) : list (event V) :=
  [TrainOneEpoch epoch; LrSchedulerStep; Evaluate epoch].

(** The three downloads of lines 99-120, in order, as they act on the disk. *)
Definition downloads {V} (cfg : settings) (w : world V) (fs : filesystem)
  : filesystem :=
  let b := s3_bucket_name (FLAGS w) in
  let s3 := s3_data_dir (FLAGS w) in
  let d := local_data_dir (FLAGS w) in
  s3_download_dir w b (Py.join "/" [s3; MANIFEST_DIR_NAME cfg])
    (Py.os_path_join d (MANIFEST_DIR_NAME cfg)) (MANIFEST_FILE_TYPE cfg)
    (s3_download_dir w b (Py.join "/" [s3; ANNOTATION_DIR_NAME cfg])
       (Py.os_path_join d (ANNOTATION_DIR_NAME cfg)) (ANNOTATION_FILE_TYPE cfg)
       (s3_download_dir w b (Py.join "/" [s3; IMAGE_DIR_NAME cfg])
          (Py.os_path_join d (IMAGE_DIR_NAME cfg)) (IMAGE_FILE_TYPE cfg) fs)).

(** ** More sample runs *)
Module Sample2.

(** A download that brings a newer manifest into the manifest directory
    and leaves the rest of the disk alone. *)
Definition fetch (bucket_name : option string)
    (s3_dir local_dir file_type : string) (fs : filesystem) : filesystem :=
  if String.eqb file_type "json" then
    {| isfile := isfile fs;
       read_text := read_text fs;
       listdir := fun d =>
         if String.eqb d local_dir then ("a_11.json" :: listdir fs d)%list
         else listdir fs d |}
  else fs.

Definition make (bucket_name : option string) (reachable : bool)
    (d : filesystem) (epochs : Z) (stats : nat -> list Z) : world Z :=
  {| FLAGS := {| local_data_dir := "data";
                 s3_bucket_name := bucket_name;
                 s3_data_dir := "boja";
                 network := "fasterrcnn_resnet50";
                 num_epochs := epochs |};
     time_time := 1590000000;
     disk := d;
     s3_bucket_exists := fun _ => reachable;
     s3_download_dir := fetch;
     cuda_is_available := true;
     len_BojaDataSet := fun _ _ _ _ => 11%nat;
     randperm := fun n => rev (seq 0 n);
     coco_stats := stats |}.

(** A reachable bucket. *)
Definition synced_run : world Z :=
  make (Some "my-bucket") true Sample.full_disk 2 Sample.stats_of.

(** A reachable bucket over a data directory without label file. *)
Definition synced_no_label_run : world Z :=
  make (Some "my-bucket") true Sample.empty_disk 2 Sample.stats_of.

(** The evaluation of epoch 1 yields three statistics only. *)
Definition short_stats (epoch : nat) : list Z :=
  if Nat.eqb epoch 1 then [1; 2; 3] else Sample.stats_of epoch.

Definition short_stats_run : world Z :=
  make None false Sample.full_disk 3 short_stats.

(** No epoch asked for. *)
Definition no_epoch_run : world Z :=
  make None false Sample.full_disk 0 Sample.stats_of.



End Sample2.

(** * Properties *)

Lemma of_int_exact n : 0 <= n < 2 ^ 53 -> Float64.of_int n = (n, 0).
Proof.
  intros [Hn Hb]. unfold Float64.of_int, Float64.round_nearest_even, Float64.prec.
  destruct (Z.eq_dec n 0) as [->|Hz]; [reflexivity|].
  assert (Z.log2 n < 53) by (apply Z.log2_lt_pow2; lia).
  destruct (Z.leb_spec (Z.log2 n + 1 - 53) 0); [reflexivity|lia].
Qed.

(** The rounded mantissa, scaled back, stays within half a unit in the
    last place of the exact value and never falls below a multiple of the
    unit that the exact value reaches. *)
Lemma round_bounds m e :
  0 < m ->
  let d := Z.log2 m + 1 - 53 in
  0 < d ->
  exists q, Float64.round_nearest_even m e = (q, e + d)
            /\ (m / 2 ^ d) * 2 ^ d <= q * 2 ^ d
            /\ 2 * (q * 2 ^ d) <= 2 * m + 2 ^ d.
Proof.
  intros Hm d Hd. unfold Float64.round_nearest_even, Float64.prec. fold d.
  destruct (Z.leb_spec d 0); [lia|].
  rewrite Z.shiftr_div_pow2, Z.land_ones, Z.shiftl_1_l by lia.
  assert (Hp : 0 < 2 ^ d) by (apply Z.pow_pos_nonneg; lia).
  assert (Hh : 2 ^ d = 2 * 2 ^ (d - 1)).
  { replace d with (Z.succ (d - 1)) at 1 by lia. rewrite Z.pow_succ_r; lia. }
  pose proof (Z.div_mod m (2 ^ d) ltac:(lia)) as Hdm.
  pose proof (Z.mod_pos_bound m (2 ^ d) Hp) as Hr.
  destruct ((2 ^ (d - 1) <? m mod 2 ^ d)
            || ((m mod 2 ^ d =? 2 ^ (d - 1)) && Z.odd (m / 2 ^ d))) eqn:E.
  - exists (m / 2 ^ d + 1). split; [reflexivity|].
    assert (2 ^ (d - 1) <= m mod 2 ^ d).
    { apply orb_true_iff in E as [E|E].
      - apply Z.ltb_lt in E. lia.
      - apply andb_true_iff in E as [E _]. apply Z.eqb_eq in E. lia. }
    split; nia.
  - exists (m / 2 ^ d). split; [reflexivity|]. split; nia.
Qed.

(** On every length a list can have in practice, the float computation of
    line 175 is integer division by five. *)
Lemma int_0_2_times_div5 n : 0 <= n < 2 ^ 50 -> int_0_2_times n = n / 5.
Proof.
  intros [Hn Hb]. unfold int_0_2_times.
  rewrite of_int_exact by lia.
  destruct (Z.eq_dec n 0) as [->|Hz]; [reflexivity|].
  unfold Float64.mul, Float64.lit_0_2. cbn [fst snd].
  set (M := 7205759403792794). set (P := M * n).
  pose proof (Z.div_mod n 5 ltac:(lia)) as Hk.
  pose proof (Z.mod_pos_bound n 5 ltac:(lia)) as Hr.
  set (k := n / 5) in *. set (r := n mod 5) in *.
  assert (HP : 0 < P) by (unfold P, M; lia).
  assert (HPk : P = k * 2 ^ 55 + 2 * k + r * M) by (unfold P, M; lia).
  assert (Hk48 : 0 <= k < 2 ^ 48) by lia.
  pose proof (Z.log2_spec P HP) as [Hlo Hhi].
  destruct (Z.leb_spec (Z.log2 P + 1 - 53) 0) as [Hd|Hd].
  - unfold Float64.round_nearest_even, Float64.prec.
    destruct (Z.leb_spec (Z.log2 P + 1 - 53) 0); [|lia].
    unfold Float64.to_int. cbn [fst snd]. change (0 <=? -55 + 0) with false.
    cbv iota. rewrite Z.shiftr_div_pow2 by lia.
    symmetry. apply (Z.div_unique_pos P (2 ^ 55) k (2 * k + r * M)); unfold M; lia.
  - destruct (round_bounds P (-55 + 0) HP Hd) as (q & -> & Hq1 & Hq2).
    set (d := Z.log2 P + 1 - 53) in *.
    assert (Hd50 : d <= 50).
    { assert (Z.log2 P < 103); [|lia].
      apply Z.log2_lt_pow2; [lia|]. unfold P, M. lia. }
    unfold Float64.to_int. cbn [fst snd].
    destruct (Z.leb_spec 0 (-55 + 0 + d)); [lia|].
    rewrite Z.shiftr_div_pow2 by lia.
    replace (- (-55 + 0 + d)) with (55 - d) by lia.
    assert (HT : 0 < 2 ^ d) by (apply Z.pow_pos_nonneg; lia).
    assert (HU : 0 < 2 ^ (55 - d)) by (apply Z.pow_pos_nonneg; lia).
    assert (HTU : 2 ^ d * 2 ^ (55 - d) = 2 ^ 55).
    { rewrite <- Z.pow_add_r by lia. f_equal. lia. }
    assert (HT52 : 2 ^ d * 2 ^ 52 <= P).
    { rewrite <- Z.pow_add_r by lia. replace (d + 52) with (Z.log2 P) by lia. exact Hlo. }
    set (T := 2 ^ d) in *. set (U := 2 ^ (55 - d)) in *.
    assert (Hlow : k * U <= P / T).
    { apply Z.div_le_lower_bound; [lia|]. unfold M in *. nia. }
    assert (HqT : q * T < (k + 1) * (T * U)).
    { rewrite HTU. unfold M in *. lia. }
    assert (k * U <= q) by nia.
    assert (q < (k + 1) * U) by nia.
    symmetry. apply (Z.div_unique_pos q U k (q - k * U)); lia.
Qed.

(** ** The Python primitives on small inputs *)

Example float_product_agrees_with_ieee :
  forallb Float64.agrees_with_ieee
    (map Z.of_nat (seq 0 2000)
     ++ [12345678901234; 2 ^ 49 + 4; 2 ^ 53 + 1; 2 ^ 60 + 12345])%list = true.
Proof. vm_compute. reflexivity. Qed.

Example int_0_2_times_samples :
  map int_0_2_times [0; 1; 4; 5; 6; 9; 10; 14; 15; 100] = [0; 0; 0; 1; 1; 1; 2; 2; 3; 20].
Proof. reflexivity. Qed.

Example slice_samples :
  slice_to [10; 20; 30] (-1) = [10; 20]
  /\ slice_from [10; 20; 30] (-1) = [30]
  /\ slice_to [10; 20; 30] 0 = []
  /\ slice_from [10; 20; 30] 0 = [10; 20; 30]
  /\ slice_to [10; 20; 30] (-7) = []
  /\ slice_from [10; 20; 30] (-7) = [10; 20; 30].
Proof. repeat split. Qed.

Example splitlines_samples :
  Py.splitlines "" = []
  /\ Py.splitlines "cat" = ["cat"]
  /\ Py.splitlines ("cat" ++ Sample.nl) = ["cat"]
  /\ Py.splitlines ("cat" ++ Sample.nl ++ Sample.nl ++ "dog") = ["cat"; ""; "dog"]
  /\ Py.splitlines Sample.nl = [""]
  /\ Py.splitlines (String "c" (String "013" (String "010" "d"))) = ["c"; "d"].
Proof. repeat split. Qed.

Example os_path_join_samples :
  Py.os_path_join "data" "labels.txt" = "data/labels.txt"
  /\ Py.os_path_join "data/" "labels.txt" = "data/labels.txt"
  /\ Py.os_path_join "data" "/etc/labels.txt" = "/etc/labels.txt"
  /\ Py.os_path_join "" "labels.txt" = "labels.txt".
Proof. repeat split. Qed.

Example highest_numbered_sample :
  FileUtils.get_highest_numbered_file Sample.manifests "data/manifests" "json"
  = Some "data/manifests/a_10.json".
Proof. reflexivity. Qed.

Example sample_run_reaches_end :
  runs_to_end Sample.config Sample.local_run = true
  /\ fst (run_main Sample.config Sample.local_run) = Returned None.
Proof. split; reflexivity. Qed.

(** ** The train/test split *)

Lemma num_test_of_div5 (n : nat) :
  Z.of_nat n < 2 ^ 50 -> num_test_of n = Z.of_nat (Nat.div n 5).
Proof.
  intros Hb. unfold num_test_of.
  rewrite int_0_2_times_div5 by lia.
  rewrite Nat2Z.inj_div. reflexivity.
Qed.

(** Both slices cut the list at the same place, whatever the bound. *)
Lemma slices_cover {A} (l : list A) (i : Z) :
  (slice_to l i ++ slice_from l i)%list = l.
Proof. unfold slice_to, slice_from. apply firstn_skipn. Qed.

Lemma slice_bound_zero len : slice_bound len (-1 * 0) = 0%nat.
Proof. unfold slice_bound. simpl. destruct len; reflexivity. Qed.

Lemma slice_bound_back len k :
  0 < k <= len -> slice_bound len (-1 * k) = Z.to_nat (len - k).
Proof.
  intros H. unfold slice_bound.
  destruct (Z.ltb_spec (-1 * k) 0); [|lia].
  f_equal. lia.
Qed.

(** The two index lists always make up the permutation they are cut from. *)
Lemma split_indices_cover n indices :
  (fst (split_indices n indices) ++ snd (split_indices n indices))%list = indices.
Proof. unfold split_indices. cbn [fst snd]. apply slices_cover. Qed.

Lemma split_indices_partition n indices :
  Permutation indices (seq 0 n) ->
  let '(train, test) := split_indices n indices in
  Permutation (train ++ test) (seq 0 n)
  /\ (forall i, In i train -> ~ In i test)
  /\ (forall i, (i < n)%nat -> In i train \/ In i test).
Proof.
  intros Hp. pose proof (split_indices_cover n indices) as Hc.
  destruct (split_indices n indices) as [train test]. cbn [fst snd] in Hc.
  assert (Hnd : NoDup (train ++ test)%list).
  { rewrite Hc. eapply Permutation_NoDup; [symmetry; exact Hp|apply seq_NoDup]. }
  split; [rewrite Hc; exact Hp|]. split.
  - intros i Hi Ht. revert Hnd Hi Ht. clear. induction train as [|a tr IH]; cbn.
    + contradiction.
    + intros Hnd [->|Hi] Ht.
      * inversion Hnd as [|? ? Hn _]. apply Hn, in_or_app. now right.
      * inversion Hnd. now apply IH.
  - intros i Hi. apply in_app_or. rewrite Hc.
    eapply Permutation_in; [symmetry; exact Hp|]. apply in_seq. lia.
Qed.

(** With fewer than five examples [num_test] is zero and both slices are
    cut at the front. *)
Lemma split_indices_small n indices :
  (n < 5)%nat -> split_indices n indices = ([], indices).
Proof.
  intros Hn. unfold split_indices.
  rewrite num_test_of_div5 by lia.
  rewrite Nat.div_small by exact Hn.
  unfold slice_to, slice_from. change (Z.of_nat 0) with 0.
  rewrite slice_bound_zero. reflexivity.
Qed.

(** From five examples on the cut leaves the trailing [n / 5] indices to
    the test subset. *)
Lemma split_indices_large n indices :
  List.length indices = n -> (5 <= n)%nat -> Z.of_nat n < 2 ^ 50 ->
  split_indices n indices
  = (firstn (n - Nat.div n 5) indices, skipn (n - Nat.div n 5) indices).
Proof.
  intros Hl Hn Hb. unfold split_indices.
  rewrite num_test_of_div5 by exact Hb.
  assert (Hk : (1 <= Nat.div n 5 <= n)%nat).
  { split; [apply Nat.div_le_lower_bound; lia|apply Nat.Div0.div_le_upper_bound; lia]. }
  unfold slice_to, slice_from. rewrite Hl.
  rewrite slice_bound_back by lia.
  replace (Z.to_nat (Z.of_nat n - Z.of_nat (Nat.div n 5))) with (n - Nat.div n 5)%nat by lia.
  reflexivity.
Qed.

(** C1, at a dataset of three examples: [num_test] is 0, the test subset
    takes all three indices and the training subset none, where the claim
    has a test subset of size floor(0.2 * 3) = 0.  The two index lists still
    partition the indices. *)
Theorem C1_three_examples_all_go_to_test :
  let indices := [2; 0; 1]%nat in
  Permutation indices (seq 0 3)
  /\ num_test_of 3 = 0
  /\ split_indices 3 indices = ([], indices)
  /\ List.length (snd (split_indices 3 indices)) <> Z.to_nat (num_test_of 3).
Proof.
  cbv zeta. split; [|split; [|split]].
  - change (seq 0 3) with [0; 1; 2]%nat.
    apply Permutation_sym, Permutation_cons_app with (l1 := [2]%nat) (l2 := [1]%nat).
    apply perm_swap.
  - reflexivity.
  - reflexivity.
  - vm_compute. discriminate.
Qed.

(** C2: with one to four examples [int(0.2 * N)] is 0, [indices[: -1 * 0]]
    is empty and [indices[-1 * 0 :]] is the whole permutation, so training
    gets nothing and testing gets every index. *)
Theorem C2_small_dataset_split_inverted (n : nat) (indices : list nat) :
  List.length indices = n -> (1 <= n <= 4)%nat ->
  num_test_of n = 0
  /\ slice_to indices (-1 * num_test_of n) = []
  /\ slice_from indices (-1 * num_test_of n) = indices
  /\ split_indices n indices = ([], indices)
  /\ List.length (snd (split_indices n indices)) = n.
Proof.
  intros Hl Hn.
  assert (H0 : num_test_of n = 0).
  { rewrite num_test_of_div5 by lia. rewrite Nat.div_small by lia. reflexivity. }
  pose proof (split_indices_small n indices ltac:(lia)) as Hs.
  split; [exact H0|]. rewrite H0.
  unfold slice_to, slice_from. rewrite slice_bound_zero.
  repeat split; try reflexivity; try exact Hs.
  rewrite Hs. exact Hl.
Qed.

Lemma C2_small_dataset_split_inverted_witness :
  split_indices 3 [2; 0; 1]%nat = ([], [2; 0; 1]%nat).
Proof.
  apply (C2_small_dataset_split_inverted 3 [2; 0; 1]%nat); [reflexivity|lia].
Defined.

(** C3, as the spec words it, fails at six examples: the ceiling asks for
    two test indices, the code takes one. *)
Lemma C3_ceiling_counterexample : ~ split_as_specified 6 [3; 1; 5; 0; 2; 4]%nat.
Proof. unfold split_as_specified. vm_compute. discriminate. Qed.

(** C3, amended: for an empty dataset or one of at least five examples the
    first [N - floor(0.2 N)] indices of the permutation train and the
    trailing [floor(0.2 N)] test. *)
Theorem C3_split_by_floor (n : nat) (indices : list nat) :
  List.length indices = n -> (n = 0 \/ 5 <= n)%nat -> Z.of_nat n < 2 ^ 50 ->
  let '(train, test) := split_indices n indices in
  train = firstn (n - Nat.div n 5) indices
  /\ test = skipn (n - Nat.div n 5) indices
  /\ List.length train = (n - Nat.div n 5)%nat
  /\ List.length test = Nat.div n 5.
Proof.
  intros Hl [Hn|Hn] Hb.
  - subst n. destruct indices; [|discriminate]. vm_compute. auto.
  - rewrite (split_indices_large n indices Hl Hn Hb).
    assert (Nat.div n 5 <= n)%nat by (apply Nat.Div0.div_le_upper_bound; lia).
    rewrite length_firstn, length_skipn, Hl. repeat split; lia.
Qed.

Lemma C3_split_by_floor_witness :
  let '(train, test) := split_indices 6 [3; 1; 5; 0; 2; 4]%nat in
  train = firstn (6 - Nat.div 6 5) [3; 1; 5; 0; 2; 4]%nat
  /\ test = skipn (6 - Nat.div 6 5) [3; 1; 5; 0; 2; 4]%nat
  /\ List.length train = (6 - Nat.div 6 5)%nat
  /\ List.length test = Nat.div 6 5.
Proof.
  apply (C3_split_by_floor 6 [3; 1; 5; 0; 2; 4]%nat);
    [reflexivity | right; lia | reflexivity].
Defined.

(** ** Label files *)

Lemma splitlines_from_nil cur s :
  Py.splitlines_from cur s = [] <-> cur = "" /\ s = "".
Proof.
  split.
  - revert cur. induction s as [|c r IH]; intros cur H; cbn in H.
    + destruct cur; [auto|discriminate].
    + destruct (Py.is_cr c).
      * destruct r as [|c' r']; [discriminate|].
        destruct (Py.is_lf c'); discriminate.
      * destruct (Py.is_linebreak c); [discriminate|].
        apply IH in H as [H _]. discriminate.
  - intros [-> ->]. reflexivity.
Qed.

(** Only the empty text has no lines. *)
Lemma splitlines_nil s : Py.splitlines s = [] <-> s = "".
Proof.
  unfold Py.splitlines. rewrite splitlines_from_nil. intuition.
Qed.

(** ** The steps of [main], one by one *)

Section Steps.

Context {V : Type}.
Variable cfg : settings.
Variable w : world V.

Local Open Scope list_scope.

Lemma remote_sync_no_bucket fs :
  s3_bucket_name (FLAGS w) = None ->
  remote_sync cfg w fs = (Val false, fs, []).
Proof.
  intros H. unfold remote_sync, bucket. rewrite H. reflexivity.
Qed.

Lemma remote_sync_bad_bucket fs b :
  s3_bucket_name (FLAGS w) = Some b ->
  s3_bucket_exists w (Some b) = false ->
  remote_sync cfg w fs
  = (Val false, fs,
     [S3BucketExists (Some b);
      Print ("Bucket: " ++ b
             ++ " either does not exist or you do not have access to it")%string]).
Proof.
  intros H E. unfold remote_sync, bucket, call_s3_bucket_exists. rewrite H.
  unfold bind, emit, ret. cbn. rewrite E. reflexivity.
Qed.

(** The sync step always hands on to the label check. *)
Lemma remote_sync_val fs :
  exists use_s3 fs' t,
    remote_sync cfg w fs = (Val use_s3, fs', t)
    /\ Forall (fun e => is_sync_event e = true) t
    /\ (use_s3 = true -> s3_bucket_name (FLAGS w) <> None).
Proof.
  unfold remote_sync, bucket, call_s3_bucket_exists, call_s3_download_dir.
  destruct (s3_bucket_name (FLAGS w)) as [b|].
  - unfold bind, emit, ret, when, print, emit, get_fs, set_fs. cbn.
    destruct (s3_bucket_exists w (Some b)); cbn;
      do 3 eexists;
      (split; [reflexivity|split; [repeat constructor|discriminate]]).
  - exists false, fs, []. repeat split; [constructor|discriminate].
Qed.

Lemma load_labels_missing fs :
  isfile fs (label_file_path cfg w) = false ->
  load_labels cfg w fs
  = (Return None, fs, [Print ("Missing file " ++ label_file_path cfg w)%string]).
Proof.
  intros H. unfold load_labels, os_path_isfile, bind, get_fs, ret. cbn.
  rewrite H. reflexivity.
Qed.

Lemma load_labels_empty fs :
  isfile fs (label_file_path cfg w) = true ->
  read_text fs (label_file_path cfg w) = "" ->
  load_labels cfg w fs
  = (Return None, fs,
     [Print ("No label categories found in " ++ label_file_path cfg w)%string]).
Proof.
  intros H E. unfold load_labels, os_path_isfile, open_read, bind, get_fs, ret.
  cbn. rewrite H. cbn. rewrite E. reflexivity.
Qed.

Lemma load_labels_lines fs :
  isfile fs (label_file_path cfg w) = true ->
  Py.splitlines (read_text fs (label_file_path cfg w)) <> [] ->
  load_labels cfg w fs
  = (Val ("background" :: Py.splitlines (read_text fs (label_file_path cfg w))),
     fs, []).
Proof.
  intros H E. unfold load_labels, os_path_isfile, open_read, bind, get_fs, ret.
  cbn. rewrite H. cbn.
  destruct (Py.splitlines (read_text fs (label_file_path cfg w))); [congruence|].
  reflexivity.
Qed.

Lemma find_manifest_run fs :
  let newest :=
    FileUtils.get_highest_numbered_file
      (listdir fs (manifest_dir cfg w)) (manifest_dir cfg w)
      (MANIFEST_FILE_TYPE cfg) in
  find_manifest cfg w fs
  = (Val newest, fs,
     match newest with
     | None =>
         [Print ("Cannot find a manifest file in: " ++ manifest_dir cfg w)%string]
     | Some _ => []
     end).
Proof.
  cbv zeta. unfold find_manifest, get_newest_manifest_path, bind, get_fs, ret.
  cbn. destruct (FileUtils.get_highest_numbered_file _ _ _); reflexivity.
Qed.

Lemma build_datasets_run labels manifest fs :
  let n := len_BojaDataSet w (image_dir cfg w) (annotation_dir cfg w)
             manifest labels in
  let split := split_indices n (randperm w n) in
  build_datasets cfg w labels manifest fs
  = (Val (List.length labels), fs,
     [Print ("Using device: " ++ " "
             ++ (if cuda_is_available w then "cuda" else "cpu"))%string;
      NewBojaDataSet (image_dir cfg w) (annotation_dir cfg w) manifest true labels;
      NewBojaDataSet (image_dir cfg w) (annotation_dir cfg w) manifest false labels;
      NewSubset true (fst split);
      NewSubset false (snd split);
      Print ("Training dataset size: "
             ++ Py.str_of_int (Z.of_nat (List.length (fst split)))
             ++ ", Testing dataset size: "
             ++ Py.str_of_int (Z.of_nat (List.length (snd split))))%string;
      NewDataLoader true true;
      NewDataLoader false false]).
Proof.
  cbv zeta. unfold build_datasets.
  destruct (split_indices _ _) as [train_indices test_indices]. reflexivity.
Qed.

(** The two subsets are built on the two halves of the split. *)
Lemma build_datasets_feeds_split labels manifest fs :
  let n := len_BojaDataSet w (image_dir cfg w) (annotation_dir cfg w)
             manifest labels in
  let split := split_indices n (randperm w n) in
  In (NewSubset true (fst split)) (log_of (build_datasets cfg w labels manifest) fs)
  /\ In (NewSubset false (snd split))
       (log_of (build_datasets cfg w labels manifest) fs).
Proof.
  cbv zeta. unfold log_of. rewrite build_datasets_run. cbn [snd].
  split; cbn; auto 8.
Qed.

(** The loop never returns from [main] and leaves the disk alone; when it
    runs through, each epoch has added its statistics at index 0 and at
    index 8 to the end of the two histories. *)
Lemma run_epochs_run epochs : forall ap ar fs,
  exists r t,
    run_epochs w epochs ap ar fs = (r, fs, t)
    /\ Forall (fun e => is_epoch_event e = true) t
    /\ match r with
       | Val (ap', ar') =>
           exists ps rs,
             ap' = ap ++ ps /\ ar' = ar ++ rs
             /\ Forall2 (fun e p =>
                           nth_error (coco_stats w e) AVERAGE_PRECISION_STAT_INDEX
                           = Some p) epochs ps
             /\ Forall2 (fun e x =>
                           nth_error (coco_stats w e) AVERAGE_RECALL_STAT_INDEX
                           = Some x) epochs rs
       | Return _ => False
       | Raise _ => True
       end.
Proof.
  induction epochs as [|epoch later IH]; intros ap ar fs.
  - exists (Val (ap, ar)), []. split; [reflexivity|]. split; [constructor|].
    exists [], []. rewrite !app_nil_r. repeat split; constructor.
  - cbn [run_epochs]. unfold bind at 1 2 3, emit. cbn.
    unfold index at 1, bind at 1.
    destruct (nth_error (coco_stats w epoch) AVERAGE_PRECISION_STAT_INDEX)
      as [p|] eqn:Ep; cbn.
    2: { exists (Raise IndexError). eexists.
         split; [reflexivity|]. split; [repeat constructor|exact I]. }
    unfold index at 1, bind at 1.
    destruct (nth_error (coco_stats w epoch) AVERAGE_RECALL_STAT_INDEX)
      as [x|] eqn:Ex; cbn.
    2: { exists (Raise IndexError). eexists.
         split; [reflexivity|]. split; [repeat constructor|exact I]. }
    destruct (IH (ap ++ [p]) (ar ++ [x]) fs) as (r & t & Hrun & Ht & Hr).
    rewrite Hrun. exists r. eexists. split; [reflexivity|].
    split; [repeat constructor; exact Ht|].
    destruct r as [[ap' ar']| |]; auto.
    destruct Hr as (ps & rs & -> & -> & Hp & Hx).
    exists (p :: ps), (x :: rs). rewrite <- !app_assoc.
    repeat split; try constructor; assumption.
Qed.

End Steps.

(** ** Whole runs *)

Section Runs.

Context {V : Type}.
Variable cfg : settings.
Variable w : world V.

Local Open Scope list_scope.

(** The label check has three ways to go. *)
Lemma load_labels_cases fs :
  (exists msg, load_labels cfg w fs = (Return None, fs, [Print msg])
               /\ (isfile fs (label_file_path cfg w) = false
                   \/ read_text fs (label_file_path cfg w) = ""%string))
  \/ (load_labels cfg w fs
      = (Val ("background"%string
                :: Py.splitlines (read_text fs (label_file_path cfg w))), fs, [])
      /\ isfile fs (label_file_path cfg w) = true
      /\ read_text fs (label_file_path cfg w) <> ""%string).
Proof.
  destruct (isfile fs (label_file_path cfg w)) eqn:Hf.
  - destruct (string_dec (read_text fs (label_file_path cfg w)) "") as [He|He].
    + left. eexists. split; [apply load_labels_empty; assumption|now right].
    + right. split; [|auto]. apply load_labels_lines; [assumption|].
      now rewrite splitlines_nil.
  - left. eexists. split; [apply load_labels_missing; assumption|now left].
Qed.

(** A run that stops at the label check. *)
Lemma main_stops_at_labels use_s3 fs1 t1 msg :
  remote_sync cfg w (disk w) = (Val use_s3, fs1, t1) ->
  load_labels cfg w fs1 = (Return None, fs1, [Print msg]) ->
  run_main cfg w = (Returned None, t1 ++ [Print msg]).
Proof.
  intros Hs Hl. unfold run_main, main. unfold bind at 1. rewrite Hs.
  unfold bind at 1. rewrite Hl. reflexivity.
Qed.

(** A run that gets past the label check: how it ends and what it logs
    hang on the loop alone. *)
Lemma main_with_labels use_s3 fs1 t1 labels :
  remote_sync cfg w (disk w) = (Val use_s3, fs1, t1) ->
  load_labels cfg w fs1 = (Val labels, fs1, []) ->
  let manifest :=
    FileUtils.get_highest_numbered_file
      (listdir fs1 (manifest_dir cfg w)) (manifest_dir cfg w)
      (MANIFEST_FILE_TYPE cfg) in
  exists r te,
    run_epochs w (Py.range (num_epochs (FLAGS w))) [] [] fs1 = (r, fs1, te)
    /\ Forall (fun e => is_epoch_event e = true) te
    /\ (forall v, r <> Return v)
    /\ main cfg w (disk w)
       = (match r with
          | Val _ => Val tt
          | Return v => Return v
          | Raise e => Raise e
          end,
          fs1,
          t1
          ++ log_of (find_manifest cfg w) fs1
          ++ log_of (build_datasets cfg w labels manifest) fs1
          ++ [NewModel (network (FLAGS w)) (List.length labels);
              Print ("Training for " ++ Py.str_of_int (num_epochs (FLAGS w))
                     ++ " epochs")%string]
          ++ te
          ++ match r with
             | Val (ap, ar) =>
                 log_of (write_artifacts cfg w (time_time w) ap ar) fs1
                 ++ log_of (publish cfg w use_s3 (time_time w)) fs1
             | _ => []
             end).
Proof.
  intros Hs Hl manifest.
  destruct (find_manifest cfg w fs1) as [[rm fsm] tm] eqn:Em.
  pose proof (find_manifest_run cfg w fs1) as Hm. cbv zeta in Hm.
  rewrite Em in Hm. fold manifest in Hm. injection Hm as -> -> _.
  destruct (build_datasets cfg w labels manifest fs1) as [[rb fsb] tb] eqn:Eb.
  pose proof (build_datasets_run cfg w labels manifest fs1) as Hb. cbv zeta in Hb.
  rewrite Eb in Hb. injection Hb as -> -> _.
  destruct (run_epochs_run w (Py.range (num_epochs (FLAGS w))) [] [] fs1)
    as (r & te & He & Hte & Hr).
  exists r, te.
  split; [exact He|]. split; [exact Hte|]. split; [intros v ->; exact Hr|].
  unfold log_of at 1 2. rewrite Em, Eb. cbn [snd].
  unfold main. unfold bind at 1. rewrite Hs.
  unfold bind at 1. rewrite Hl.
  unfold bind at 1. rewrite Em.
  unfold bind at 1. rewrite Eb.
  unfold bind at 1. unfold train. unfold bind at 1 2, emit, print, emit.
  rewrite He.
  destruct r as [[ap ar]|v|e]; cbn [app]; rewrite <- ?app_assoc, ?app_nil_r;
    try reflexivity.
  unfold log_of.
  destruct (write_artifacts cfg w (time_time w) ap ar fs1) as [[ra fsa] ta] eqn:Ea.
  assert (ra = Val tt /\ fsa = fs1) as [-> ->].
  { unfold write_artifacts, bind, emit, print, emit in Ea. cbn in Ea.
    inversion Ea. auto. }
  unfold bind at 1. rewrite Ea.
  destruct (publish cfg w use_s3 (time_time w) fs1) as [[rp fsp] tp] eqn:Ep.
  assert (rp = Val tt /\ fsp = fs1) as [-> ->].
  { unfold publish, when, bind, emit, print, emit, ret in Ep.
    destruct use_s3; cbn in Ep; inversion Ep; auto. }
  cbn [snd app]. rewrite <- ?app_assoc. reflexivity.
Qed.

Lemma find_manifest_log fs :
  log_of (find_manifest cfg w) fs
  = match FileUtils.get_highest_numbered_file
            (listdir fs (manifest_dir cfg w)) (manifest_dir cfg w)
            (MANIFEST_FILE_TYPE cfg) with
    | None =>
        [Print ("Cannot find a manifest file in: " ++ manifest_dir cfg w)%string]
    | Some _ => []
    end.
Proof. unfold log_of. rewrite find_manifest_run. reflexivity. Qed.

Lemma build_datasets_log labels manifest fs :
  exists rest,
    log_of (build_datasets cfg w labels manifest) fs
    = [Print ("Using device: " ++ " "
              ++ (if cuda_is_available w then "cuda" else "cpu"))%string;
       NewBojaDataSet (image_dir cfg w) (annotation_dir cfg w) manifest true labels;
       NewBojaDataSet (image_dir cfg w) (annotation_dir cfg w) manifest false labels]
      ++ rest
    /\ Forall (fun e => is_network_io e = false /\ is_artifact_write e = false)
         rest.
Proof.
  unfold log_of. rewrite build_datasets_run. cbn [snd].
  eexists. split; [reflexivity|]. repeat constructor.
Qed.

Lemma disk_after_sync_eq use_s3 fs1 t1 :
  remote_sync cfg w (disk w) = (Val use_s3, fs1, t1) ->
  disk_after_sync cfg w = fs1.
Proof. intros H. unfold disk_after_sync. rewrite H. reflexivity. Qed.

Lemma write_artifacts_log start_time ap ar fs :
  log_of (write_artifacts cfg w start_time ap ar) fs
  = [CreateOutputDir (Py.os_path_join (data_dir w) (MODEL_STATE_DIR_NAME cfg));
     TorchSave (model_state_file_path cfg w start_time);
     Print ("Model state saved at: " ++ model_state_file_path cfg w start_time)%string;
     PltPlot ap "AP: IoU=0.50:0.95 maxDets=100";
     PltPlot ar "AR: IoU=0.50:0.95 maxDets=100";
     PltLegend;
     PltTitle ("Evaluation data from " ++ run_name w start_time)%string;
     CreateOutputDir (Py.os_path_join (data_dir w) (LOGS_DIR_NAME cfg));
     PltSavefig (log_file_path cfg w start_time);
     Print ("Log file saved at: " ++ log_file_path cfg w start_time)%string].
Proof. reflexivity. Qed.

Lemma publish_local_log start_time fs :
  log_of (publish cfg w false start_time) fs = [Print "Training complete"].
Proof. reflexivity. Qed.

(** A run that gets to the last line of [main] went through every step. *)
Lemma runs_to_end_inv :
  runs_to_end cfg w = true ->
  exists use_s3 fs1 t1 ap ar te,
    remote_sync cfg w (disk w) = (Val use_s3, fs1, t1)
    /\ load_labels cfg w fs1
       = (Val ("background"%string
                 :: Py.splitlines (read_text fs1 (label_file_path cfg w))), fs1, [])
    /\ run_epochs w (Py.range (num_epochs (FLAGS w))) [] [] fs1
       = (Val (ap, ar), fs1, te)
    /\ run_main cfg w
       = (Returned None,
          t1
          ++ log_of (find_manifest cfg w) fs1
          ++ log_of (build_datasets cfg w
                       ("background"%string
                          :: Py.splitlines (read_text fs1 (label_file_path cfg w)))
                       (FileUtils.get_highest_numbered_file
                          (listdir fs1 (manifest_dir cfg w)) (manifest_dir cfg w)
                          (MANIFEST_FILE_TYPE cfg))) fs1
          ++ [NewModel (network (FLAGS w))
                (S (List.length
                      (Py.splitlines (read_text fs1 (label_file_path cfg w)))));
              Print ("Training for " ++ Py.str_of_int (num_epochs (FLAGS w))
                     ++ " epochs")%string]
          ++ te
          ++ log_of (write_artifacts cfg w (time_time w) ap ar) fs1
          ++ log_of (publish cfg w use_s3 (time_time w)) fs1).
Proof.
  intros Hend. unfold runs_to_end in Hend.
  destruct (remote_sync_val cfg w (disk w)) as (use_s3 & fs1 & t1 & Hs & _ & _).
  destruct (load_labels_cases fs1) as [(msg & Hl & _)|(Hl & _ & _)].
  - exfalso. unfold main in Hend. unfold bind at 1 in Hend. rewrite Hs in Hend.
    unfold bind at 1 in Hend. rewrite Hl in Hend. discriminate.
  - destruct (main_with_labels use_s3 fs1 t1 _ Hs Hl)
      as (r & te & He & _ & _ & Hmain).
    rewrite Hmain in Hend.
    destruct r as [[ap ar]| |]; try discriminate.
    exists use_s3, fs1, t1, ap, ar, te.
    split; [exact Hs|]. split; [exact Hl|]. split; [exact He|].
    unfold run_main. rewrite Hmain. reflexivity.
Qed.

(** Every way out of [main] hands [None] to [sys.exit]. *)
Lemma main_returns_none v :
  fst (run_main cfg w) = Returned v -> v = None.
Proof.
  destruct (remote_sync_val cfg w (disk w)) as (use_s3 & fs1 & t1 & Hs & _ & _).
  destruct (load_labels_cases fs1) as [(msg & Hl & _)|(Hl & _ & _)].
  - rewrite (main_stops_at_labels use_s3 fs1 t1 msg Hs Hl). cbn. congruence.
  - destruct (main_with_labels use_s3 fs1 t1 _ Hs Hl)
      as (r & te & _ & _ & Hr & Hmain).
    unfold run_main. rewrite Hmain.
    destruct r as [[ap ar]|v'|e]; cbn; try congruence.
    now destruct (Hr v').
Qed.

Lemma sync_event_builds_nothing (e : event V) :
  is_sync_event e = true ->
  is_dataset_construction e = false /\ is_artifact_write e = false.
Proof. destruct e; cbn; auto; discriminate. Qed.

Lemma epoch_event_stays_local (e : event V) :
  is_epoch_event e = true -> is_network_io e = false.
Proof. destruct e; cbn; auto; discriminate. Qed.

(** Without a bucket name no call reaches remote storage, however the run
    ends. *)
Lemma no_bucket_no_network :
  s3_bucket_name (FLAGS w) = None ->
  Forall (fun e => is_network_io e = false) (snd (run_main cfg w)).
Proof.
  intros Hb. pose proof (remote_sync_no_bucket cfg w (disk w) Hb) as Hs.
  destruct (load_labels_cases (disk w)) as [(msg & Hl & _)|(Hl & _ & _)].
  - rewrite (main_stops_at_labels _ _ _ msg Hs Hl). cbn. repeat constructor.
  - destruct (main_with_labels _ _ _ _ Hs Hl) as (r & te & _ & Hte & _ & Hmain).
    unfold run_main. rewrite Hmain.
    assert (Htm : Forall (fun e => is_network_io e = false)
                    (log_of (find_manifest cfg w) (disk w))).
    { rewrite find_manifest_log.
      destruct (FileUtils.get_highest_numbered_file _ _ _); repeat constructor. }
    destruct (build_datasets_log
                ("background"%string
                   :: Py.splitlines (read_text (disk w) (label_file_path cfg w)))
                (FileUtils.get_highest_numbered_file
                   (listdir (disk w) (manifest_dir cfg w)) (manifest_dir cfg w)
                   (MANIFEST_FILE_TYPE cfg)) (disk w)) as (rest & -> & Hrest).
    assert (Hrest' : Forall (fun e => is_network_io e = false) rest).
    { eapply Forall_impl; [|exact Hrest]. now intros e [H _]. }
    assert (Hte' : Forall (fun e => is_network_io e = false) te).
    { eapply Forall_impl; [|exact Hte]. apply epoch_event_stays_local. }
    destruct r as [[ap ar]|v|e]; cbn [snd];
      rewrite ?write_artifacts_log, ?publish_local_log;
      repeat (apply Forall_app; split); try assumption; repeat constructor.
Qed.



End Runs.

(** ** The claims about whole runs *)

Section Claims.

Context {V : Type}.
Variable cfg : settings.
Variable w : world V.

Local Open Scope list_scope.

(** C4: when the label file holds at least one non-empty line, the label
    list [main] goes on with has one entry more than the file has lines,
    "background" at index 0 and the lines of the file after it in file
    order; both datasets are built on that list. *)
Theorem C4_label_set_is_background_then_lines :
  let fs := disk_after_sync cfg w in
  let lines := Py.splitlines (read_text fs (label_file_path cfg w)) in
  isfile fs (label_file_path cfg w) = true ->
  (exists line, In line lines /\ line <> ""%string) ->
  exists labels,
    load_labels cfg w fs = (Val labels, fs, [])
    /\ List.length labels = (List.length lines + 1)%nat
    /\ nth_error labels 0 = Some "background"%string
    /\ (forall i, nth_error labels (S i) = nth_error lines i)
    /\ exists manifest,
         In (NewBojaDataSet (image_dir cfg w) (annotation_dir cfg w)
               manifest true labels) (snd (run_main cfg w))
         /\ In (NewBojaDataSet (image_dir cfg w) (annotation_dir cfg w)
                  manifest false labels) (snd (run_main cfg w)).
Proof.
  cbv zeta. intros Hf (line & Hin & _).
  destruct (remote_sync_val cfg w (disk w)) as (use_s3 & fs1 & t1 & Hs & _ & _).
  rewrite (disk_after_sync_eq cfg w _ _ _ Hs) in *.
  assert (Hne : Py.splitlines (read_text fs1 (label_file_path cfg w)) <> []).
  { intros E. rewrite E in Hin. exact Hin. }
  pose proof (load_labels_lines cfg w fs1 Hf Hne) as Hl.
  eexists. split; [exact Hl|].
  split; [cbn; lia|]. split; [reflexivity|]. split; [reflexivity|].
  destruct (main_with_labels cfg w _ _ _ _ Hs Hl) as (r & te & _ & _ & _ & Hmain).
  destruct (build_datasets_log cfg w
              ("background"%string
                 :: Py.splitlines (read_text fs1 (label_file_path cfg w)))
              (FileUtils.get_highest_numbered_file
                 (listdir fs1 (manifest_dir cfg w)) (manifest_dir cfg w)
                 (MANIFEST_FILE_TYPE cfg)) fs1) as (rest & Hlog & _).
  eexists. unfold run_main. rewrite Hmain, Hlog.
  split; destruct r as [[ap ar]| |]; cbn [snd];
    apply in_or_app; right; apply in_or_app; right; apply in_or_app; left;
    cbn; auto.
Qed.

(** C5: when the label file is absent or empty at the label check, [main]
    prints one message and returns [None], so the process exits with
    code 0; up to then it has only talked to remote storage and printed,
    and the whole run neither constructs a dataset nor writes a weights or
    plot file. *)
Theorem C5_no_labels_stops_clean :
  isfile (disk_after_sync cfg w) (label_file_path cfg w) = false
  \/ read_text (disk_after_sync cfg w) (label_file_path cfg w) = ""%string ->
  exists before msg,
    run_main cfg w = (Returned None, before ++ [Print msg])
    /\ exit_code (fst (run_main cfg w)) = 0
    /\ Forall (fun e => is_sync_event e = true) before
    /\ Forall (fun e => is_dataset_construction e = false
                        /\ is_artifact_write e = false)
         (snd (run_main cfg w)).
Proof.
  intros Hno.
  destruct (remote_sync_val cfg w (disk w)) as (use_s3 & fs1 & t1 & Hs & Ht1 & _).
  rewrite (disk_after_sync_eq cfg w _ _ _ Hs) in Hno.
  destruct (load_labels_cases cfg w fs1) as [(msg & Hl & _)|(_ & Hf & Hne)].
  - exists t1, msg. rewrite (main_stops_at_labels cfg w _ _ _ _ Hs Hl).
    split; [reflexivity|]. split; [reflexivity|]. split; [exact Ht1|].
    cbn [snd]. apply Forall_app. split.
    + eapply Forall_impl; [|exact Ht1]. apply sync_event_builds_nothing.
    + repeat constructor.
  - destruct Hno; congruence.
Qed.

(** C6: when the label file is usable and manifest discovery yields
    [None], [main] prints that no manifest was found and goes straight on:
    the next calls print the device and construct both datasets with
    [None] as their manifest. *)
Theorem C6_missing_manifest_is_only_printed :
  let fs := disk_after_sync cfg w in
  isfile fs (label_file_path cfg w) = true ->
  read_text fs (label_file_path cfg w) <> ""%string ->
  get_newest_manifest_path (V:=V) cfg (manifest_dir cfg w) fs
  = (Val None, fs, []) ->
  exists before labels after,
    snd (run_main cfg w)
    = before
      ++ [Print ("Cannot find a manifest file in: " ++ manifest_dir cfg w)%string;
          Print ("Using device: " ++ " "
                 ++ (if cuda_is_available w then "cuda" else "cpu"))%string;
          NewBojaDataSet (image_dir cfg w) (annotation_dir cfg w) None true labels;
          NewBojaDataSet (image_dir cfg w) (annotation_dir cfg w) None false labels]
      ++ after
    /\ Forall (fun e => is_sync_event e = true) before.
Proof.
  cbv zeta. intros Hf Hne Hnone.
  destruct (remote_sync_val cfg w (disk w)) as (use_s3 & fs1 & t1 & Hs & Ht1 & _).
  rewrite (disk_after_sync_eq cfg w _ _ _ Hs) in *.
  destruct (load_labels_cases cfg w fs1) as [(msg & _ & [Hx|Hx])|(Hl & _ & _)];
    try congruence.
  destruct (main_with_labels cfg w _ _ _ _ Hs Hl) as (r & te & _ & _ & _ & Hmain).
  unfold get_newest_manifest_path, bind, get_fs, ret in Hnone. cbn in Hnone.
  injection Hnone as Hnone.
  rewrite find_manifest_log, Hnone in Hmain.
  destruct (build_datasets_log cfg w
              ("background"%string
                 :: Py.splitlines (read_text fs1 (label_file_path cfg w)))
              None fs1) as (rest & Hlog & _).
  rewrite Hlog in Hmain.
  exists t1. eexists. unfold run_main. rewrite Hmain.
  destruct r as [[ap ar]| |]; cbn [snd]; eexists;
    (split; [|exact Ht1]); rewrite <- ?app_assoc; cbn [app]; reflexivity.
Qed.

(** C8, amended: without a bucket name no call ever reaches remote
    storage, and a run that gets to the end of [main] has saved the weights
    and the plot under the data directory, both named after the start
    timestamp and the network. *)
Theorem C8_without_bucket_all_local :
  s3_bucket_name (FLAGS w) = None ->
  Forall (fun e => is_network_io e = false) (snd (run_main cfg w))
  /\ (runs_to_end cfg w = true ->
      writes_artifacts cfg w
      /\ model_state_file_path cfg w (time_time w)
         = Py.os_path_join
             (Py.os_path_join (local_data_dir (FLAGS w)) (MODEL_STATE_DIR_NAME cfg))
             ((Py.str_of_int (time_time w) ++ "-" ++ network (FLAGS w))
              ++ "." ++ MODEL_STATE_FILE_TYPE cfg)%string
      /\ log_file_path cfg w (time_time w)
         = Py.os_path_join
             (Py.os_path_join (local_data_dir (FLAGS w)) (LOGS_DIR_NAME cfg))
             ((Py.str_of_int (time_time w) ++ "-" ++ network (FLAGS w))
              ++ ".jpg")%string).
Proof.
  intros Hb. split; [exact (no_bucket_no_network cfg w Hb)|].
  intros Hend.
  destruct (runs_to_end_inv cfg w Hend)
    as (use_s3 & fs1 & t1 & ap & ar & te & _ & _ & _ & Hrun).
  split; [|split].
  - unfold writes_artifacts. rewrite Hrun. cbn [snd]. rewrite write_artifacts_log.
    split; do 5 (apply in_or_app; right); apply in_or_app; left; cbn; auto 12.
  - reflexivity.
  - reflexivity.
Qed.

(** C9: when the named bucket cannot be reached, the sync step logs the
    failure and turns [use_s3] off; from there the run is, call for call and
    in its outcome, the run of the same world without a bucket name, which
    never reaches remote storage. *)
Theorem C9_unreachable_bucket_goes_local (b : string) :
  s3_bucket_name (FLAGS w) = Some b ->
  s3_bucket_exists w (Some b) = false ->
  let failure :=
    [S3BucketExists (Some b);
     Print ("Bucket: " ++ b
            ++ " either does not exist or you do not have access to it")%string] in
  remote_sync cfg w (disk w) = (Val false, disk w, failure)
  /\ run_main cfg w
     = (fst (run_main cfg (without_bucket w)),
        failure ++ snd (run_main cfg (without_bucket w)))
  /\ Forall (fun e => is_network_io e = false)
       (snd (run_main cfg (without_bucket w))).
Proof.
  intros Hb Hx. cbv zeta.
  set (failure_log :=
         [S3BucketExists (V:=V) (Some b);
          Print ("Bucket: " ++ b
                 ++ " either does not exist or you do not have access to it")%string]).
  pose proof (remote_sync_bad_bucket cfg w (disk w) b Hb Hx) as Hs.
  fold failure_log in Hs.
  split; [exact Hs|]. split.
  - pose proof (remote_sync_no_bucket cfg (without_bucket w) (disk w) eq_refl)
      as Hs'.
    assert (Hw : exists x, main cfg w (disk w) = x
                           /\ main cfg (without_bucket w) (disk w)
                              = (fst (fst x), snd (fst x), skipn 2 (snd x))
                           /\ firstn 2 (snd x) = failure_log).
    { eexists. split; [|split].
      - unfold main. unfold bind at 1. rewrite Hs. reflexivity.
      - unfold main. unfold bind at 1. rewrite Hs'.
        match goal with
        | |- match ?k' with _ => _ end
             = (fst (fst (match ?k with _ => _ end)), _, _) =>
            change k' with k; destruct k as [[r fs2] t2]
        end.
        reflexivity.
      - match goal with
        | |- context [match ?k with _ => _ end] => destruct k as [[r fs2] t2]
        end.
        reflexivity. }
    destruct Hw as (x & Hx1 & Hx2 & Hx3).
    unfold run_main. change (disk (without_bucket w)) with (disk w).
    rewrite Hx1, Hx2. destruct x as [[r fs2] t2]. cbn [fst snd] in *.
    destruct r; cbn [fst snd]; rewrite <- Hx3, firstn_skipn; reflexivity.
  - apply no_bucket_no_network. reflexivity.
Qed.

(** C10: in a run that gets to the end of [main], the histories handed to
    the plot hold one entry per epoch of [range(num_epochs)], in epoch
    order: entry [i] of the precision history is element 0 of the
    statistics of epoch [i], entry [i] of the recall history is element 8;
    so each history has exactly [num_epochs] entries. *)
Theorem C10_histories_one_entry_per_epoch :
  runs_to_end cfg w = true ->
  exists average_persision average_recall,
    In (PltPlot average_persision "AP: IoU=0.50:0.95 maxDets=100")
       (snd (run_main cfg w))
    /\ In (PltPlot average_recall "AR: IoU=0.50:0.95 maxDets=100")
         (snd (run_main cfg w))
    /\ Forall2 (fun epoch p => nth_error (coco_stats w epoch) 0 = Some p)
         (Py.range (num_epochs (FLAGS w))) average_persision
    /\ Forall2 (fun epoch r => nth_error (coco_stats w epoch) 8 = Some r)
         (Py.range (num_epochs (FLAGS w))) average_recall
    /\ List.length average_persision = Z.to_nat (num_epochs (FLAGS w))
    /\ List.length average_recall = Z.to_nat (num_epochs (FLAGS w))
    /\ (0 <= num_epochs (FLAGS w) ->
        Z.of_nat (List.length average_persision) = num_epochs (FLAGS w)
        /\ Z.of_nat (List.length average_recall) = num_epochs (FLAGS w)).
Proof.
  intros Hend.
  destruct (runs_to_end_inv cfg w Hend)
    as (use_s3 & fs1 & t1 & ap & ar & te & _ & _ & He & Hrun).
  destruct (run_epochs_run w (Py.range (num_epochs (FLAGS w))) [] [] fs1)
    as (r & te' & He' & _ & Hr).
  rewrite He in He'. injection He' as <- _.
  destruct Hr as (ps & rs & -> & -> & Hp & Hx).
  change ([] ++ ps) with ps in *. change ([] ++ rs) with rs in *.
  exists ps, rs.
  pose proof (Forall2_length Hp) as Lp. pose proof (Forall2_length Hx) as Lx.
  unfold Py.range in Lp, Lx. rewrite length_seq in Lp, Lx.
  rewrite Hrun. cbn [snd]. rewrite write_artifacts_log.
  split; [do 5 (apply in_or_app; right); apply in_or_app; left; cbn; auto 12|].
  split; [do 5 (apply in_or_app; right); apply in_or_app; left; cbn; auto 12|].
  split; [exact Hp|]. split; [exact Hx|]. repeat split; lia.
Qed.

End Claims.

(** ** Manifest discovery *)

Section Scan.

Variable file_type : string.

Lemma scan_step_origin best file n' f' :
  FileUtils.scan_step file_type best file = Some (n', f') ->
  best = Some (n', f')
  \/ (f' = file /\ FileUtils.is_numbered file_type file n').
Proof.
  unfold FileUtils.scan_step, FileUtils.is_numbered.
  destruct (Py.endswith file file_type); [|auto].
  destruct (FileUtils.embedded_number file) as [n|]; [|auto].
  destruct best as [[m g]|].
  - destruct (m <? n)%N; intros H; [|auto].
    injection H as <- <-. auto.
  - intros H. injection H as <- <-. auto.
Qed.

Lemma scan_step_keeps best file n f :
  best = Some (n, f) ->
  exists n' f',
    FileUtils.scan_step file_type best file = Some (n', f') /\ (n <= n')%N.
Proof.
  intros ->. unfold FileUtils.scan_step.
  destruct (Py.endswith file file_type); [|exists n, f; split; [auto|lia]].
  destruct (FileUtils.embedded_number file) as [m|];
    [|exists n, f; split; [auto|lia]].
  destruct (N.ltb_spec n m).
  - exists m, file. split; [auto|lia].
  - exists n, f. split; [auto|lia].
Qed.

Lemma scan_step_takes best file n :
  FileUtils.is_numbered file_type file n ->
  exists n' f',
    FileUtils.scan_step file_type best file = Some (n', f') /\ (n <= n')%N.
Proof.
  intros [He Hn]. unfold FileUtils.scan_step. rewrite He, Hn.
  destruct best as [[m g]|].
  - destruct (N.ltb_spec m n).
    + exists n, file. split; [auto|lia].
    + exists m, g. split; [auto|lia].
  - exists n, file. split; [auto|lia].
Qed.

(** What the scan ends with comes from the start value or from the
    listing, and nothing numbered in either is higher. *)
Lemma scan_fold listing : forall best,
  (forall n' f',
      fold_left (FileUtils.scan_step file_type) listing best = Some (n', f') ->
      best = Some (n', f')
      \/ (In f' listing /\ FileUtils.is_numbered file_type f' n'))
  /\ (forall n f,
         best = Some (n, f)
         \/ (In f listing /\ FileUtils.is_numbered file_type f n) ->
         exists n' f',
           fold_left (FileUtils.scan_step file_type) listing best = Some (n', f')
           /\ (n <= n')%N).
Proof.
  induction listing as [|file rest IH]; intros best.
  - split.
    + intros n' f' H. now left.
    + intros n f [->|[[] _]]. exists n, f. split; [reflexivity|lia].
  - cbn [fold_left].
    destruct (IH (FileUtils.scan_step file_type best file)) as [IH1 IH2].
    split.
    + intros n' f' H. apply IH1 in H as [H|[Hin Hn]].
      * apply scan_step_origin in H as [H|[-> Hn]]; [now left|].
        right. split; [now left|exact Hn].
      * right. split; [now right|exact Hn].
    + intros n f [Hb|[[->|Hin] Hn]].
      * destruct (scan_step_keeps best file n f Hb) as (n1 & f1 & E & Hle).
        destruct (IH2 n1 f1 (or_introl E)) as (n' & f' & E' & Hle').
        exists n', f'. split; [exact E'|lia].
      * destruct (scan_step_takes best f n Hn) as (n1 & f1 & E & Hle).
        destruct (IH2 n1 f1 (or_introl E)) as (n' & f' & E' & Hle').
        exists n', f'. split; [exact E'|lia].
      * apply (IH2 n f). right. split; assumption.
Qed.

End Scan.

(** C7: in a directory that holds at least one file of the manifest type
    with a number in its name, discovery returns the path of such a file,
    and no file of that type in the directory carries a higher number. *)
Theorem C7_newest_manifest_has_highest_number {V : Type} (cfg : settings)
    (fs : filesystem) (dir : string) :
  (exists file n,
      In file (listdir fs dir)
      /\ FileUtils.is_numbered (MANIFEST_FILE_TYPE cfg) file n) ->
  exists file n,
    get_newest_manifest_path (V:=V) cfg dir fs
    = (Val (Some (Py.os_path_join dir file)), fs, [])
    /\ In file (listdir fs dir)
    /\ FileUtils.is_numbered (MANIFEST_FILE_TYPE cfg) file n
    /\ forall other m,
         In other (listdir fs dir) ->
         FileUtils.is_numbered (MANIFEST_FILE_TYPE cfg) other m -> (m <= n)%N.
Proof.
  intros (file0 & n0 & Hin0 & Hn0).
  destruct (scan_fold (MANIFEST_FILE_TYPE cfg) (listdir fs dir) None) as [H1 H2].
  destruct (H2 n0 file0 (or_intror (conj Hin0 Hn0))) as (n & file & E & _).
  exists file, n.
  destruct (H1 n file E) as [Hx|[Hin Hn]]; [discriminate|].
  split.
  - unfold get_newest_manifest_path, bind, get_fs, ret. cbn.
    unfold FileUtils.get_highest_numbered_file. rewrite E. reflexivity.
  - split; [exact Hin|]. split; [exact Hn|].
    intros other m Ho Hm.
    destruct (H2 m other (or_intror (conj Ho Hm))) as (n' & f' & E' & Hle).
    rewrite E in E'. injection E' as <- <-. exact Hle.
Qed.

(** ** The claims on the sample runs *)

Lemma C4_label_set_is_background_then_lines_witness :
  exists labels,
    load_labels Sample.config Sample.local_run Sample.full_disk
    = (Val labels, Sample.full_disk, [])
    /\ nth_error labels 0 = Some "background"
    /\ nth_error labels 1 = Some "cat"
    /\ nth_error labels 2 = Some "dog"
    /\ List.length labels = 3%nat.
Proof.
  destruct (C4_label_set_is_background_then_lines Sample.config Sample.local_run)
    as (labels & Hload & Hlen & H0 & Hrest & _).
  - reflexivity.
  - exists "cat". split; [vm_compute; auto|discriminate].
  - exists labels. split; [exact Hload|]. split; [exact H0|].
    split; [rewrite Hrest; reflexivity|].
    split; [rewrite Hrest; reflexivity|exact Hlen].
Defined.

Lemma C5_no_labels_stops_clean_witness :
  exit_code (fst (run_main Sample.config Sample.no_label_run)) = 0
  /\ Forall (fun e => is_dataset_construction e = false
                      /\ is_artifact_write e = false)
       (snd (run_main Sample.config Sample.no_label_run)).
Proof.
  destruct (C5_no_labels_stops_clean Sample.config Sample.no_label_run)
    as (before & msg & _ & Hexit & _ & Hquiet).
  - left. reflexivity.
  - split; [exact Hexit|exact Hquiet].
Defined.

Lemma C6_missing_manifest_is_only_printed_witness :
  exists before labels after,
    snd (run_main Sample.config Sample.no_manifest_run)
    = (before
       ++ [Print "Cannot find a manifest file in: data/manifests";
           Print "Using device:  cpu";
           NewBojaDataSet "data/images" "data/annotations" None true labels;
           NewBojaDataSet "data/images" "data/annotations" None false labels]
       ++ after)%list.
Proof.
  destruct (C6_missing_manifest_is_only_printed Sample.config Sample.no_manifest_run)
    as (before & labels & after & Hlog & _).
  - reflexivity.
  - vm_compute. discriminate.
  - reflexivity.
  - exists before, labels, after. exact Hlog.
Defined.

Lemma C7_newest_manifest_has_highest_number_witness :
  get_newest_manifest_path (V:=Z) Sample.config "data/manifests" Sample.full_disk
  = (Val (Some "data/manifests/a_10.json"), Sample.full_disk, []).
Proof.
  destruct (C7_newest_manifest_has_highest_number (V:=Z) Sample.config
              Sample.full_disk "data/manifests")
    as (file & n & Hpath & Hin & [_ Hn] & Hmax).
  - exists "a_3.json", 3%N. vm_compute. auto.
  - assert (H10 : (10 <= n)%N).
    { apply (Hmax "a_10.json"); vm_compute; auto. }
    rewrite Hpath.
    destruct Hin as [<-|[<-|[<-|[]]]]; vm_compute in Hn;
      injection Hn as <-; try reflexivity; exfalso; apply H10; reflexivity.
Defined.

(** C8, as stated, fails on a run without bucket and without label file:
    it stops at the label check and saves neither file. *)
Lemma C8_no_label_file_counterexample :
  s3_bucket_name (FLAGS Sample.no_label_run) = None
  /\ ~ writes_artifacts Sample.config Sample.no_label_run.
Proof.
  split; [reflexivity|]. intros [H _]. vm_compute in H.
  destruct H as [H|[]]. discriminate.
Qed.

Lemma C8_without_bucket_all_local_witness :
  Forall (fun e => is_network_io e = false)
    (snd (run_main Sample.config Sample.local_run))
  /\ writes_artifacts Sample.config Sample.local_run
  /\ model_state_file_path Sample.config Sample.local_run 1590000000
     = "data/modelstates/1590000000-fasterrcnn_resnet50.pt"
  /\ log_file_path Sample.config Sample.local_run 1590000000
     = "data/logs/1590000000-fasterrcnn_resnet50.jpg".
Proof.
  destruct (C8_without_bucket_all_local Sample.config Sample.local_run)
    as [Hlocal Hdone].
  - reflexivity.
  - split; [exact Hlocal|]. split; [apply Hdone; reflexivity|].
    split; reflexivity.
Defined.

Lemma C9_unreachable_bucket_goes_local_witness :
  run_main Sample.config Sample.bad_bucket_run
  = (fst (run_main Sample.config Sample.local_run),
     [S3BucketExists (Some "my-bucket");
      Print "Bucket: my-bucket either does not exist or you do not have access to it"]
     ++ snd (run_main Sample.config Sample.local_run))%list
  /\ Forall (fun e => is_network_io e = false)
       (snd (run_main Sample.config Sample.local_run)).
Proof.
  destruct (C9_unreachable_bucket_goes_local Sample.config Sample.bad_bucket_run
              "my-bucket")
    as (_ & Hrun & Hlocal).
  - reflexivity.
  - reflexivity.
  - split; [exact Hrun|exact Hlocal].
Defined.

Lemma C10_histories_one_entry_per_epoch_witness :
  exists average_persision average_recall,
    In (PltPlot average_persision "AP: IoU=0.50:0.95 maxDets=100")
       (snd (run_main Sample.config Sample.local_run))
    /\ In (PltPlot average_recall "AR: IoU=0.50:0.95 maxDets=100")
         (snd (run_main Sample.config Sample.local_run))
    /\ Z.of_nat (List.length average_persision) = 2
    /\ Z.of_nat (List.length average_recall) = 2.
Proof.
  destruct (C10_histories_one_entry_per_epoch Sample.config Sample.local_run)
    as (ap & ar & Hp & Hr & _ & _ & _ & _ & Lz).
  - reflexivity.
  - destruct Lz as [Lp Lr]; [vm_compute; discriminate|].
    exists ap, ar. repeat split; assumption.
Defined.

(** * Further properties *)

(** ** The split and the test count *)

(** X1: whatever the dataset size, the two index lists of lines 177-178
    are the permutation cut in two: together they hold every index of the
    dataset exactly once, and no index is in both. *)
Theorem X1_split_is_a_partition (n : nat) (indices : list nat) :
  Permutation indices (seq 0 n) ->
  let '(train, test) := split_indices n indices in
  (train ++ test)%list = indices
  /\ NoDup (train ++ test)
  /\ (forall i, In i train -> ~ In i test)
  /\ (forall i, (i < n)%nat -> In i train \/ In i test)
  /\ (List.length train + List.length test = n)%nat.
Proof.
  intros Hp. pose proof (split_indices_cover n indices) as Hc.
  pose proof (split_indices_partition n indices Hp) as Hpart.
  destruct (split_indices n indices) as [train test]. cbn [fst snd] in Hc.
  destruct Hpart as (Hperm & Hdis & Hall).
  split; [exact Hc|]. split.
  - eapply Permutation_NoDup; [symmetry; exact Hperm|apply seq_NoDup].
  - split; [exact Hdis|]. split; [exact Hall|].
    rewrite <- length_app. rewrite (Permutation_length Hperm). apply length_seq.
Qed.

Lemma X1_split_is_a_partition_witness :
  let '(train, test) := split_indices 6 [3; 1; 5; 0; 2; 4]%nat in
  (train ++ test)%list = [3; 1; 5; 0; 2; 4]%nat
  /\ NoDup (train ++ test)
  /\ (forall i, In i train -> ~ In i test)
  /\ (forall i, (i < 6)%nat -> In i train \/ In i test)
  /\ (List.length train + List.length test = 6)%nat.
Proof.
  apply (X1_split_is_a_partition 6 [3; 1; 5; 0; 2; 4]%nat).
  change (seq 0 6) with [0; 1; 2; 3; 4; 5]%nat.
  apply Permutation_sym.
  apply (Permutation_cons_app [3; 1; 5]%nat [2; 4]%nat).
  apply (Permutation_cons_app [3]%nat [5; 2; 4]%nat).
  apply (Permutation_cons_app [3; 5]%nat [4]%nat).
  apply (Permutation_cons_app []%nat [5; 4]%nat).
  apply (Permutation_cons_app [5]%nat []%nat).
  apply Permutation_refl.
Defined.

(** X2: the training subset is empty exactly when the dataset has fewer
    than five examples, and a dataset that is not empty never has an empty
    test subset. *)
Theorem X2_training_empty_below_five (n : nat) (indices : list nat) :
  List.length indices = n -> Z.of_nat n < 2 ^ 50 ->
  let '(train, test) := split_indices n indices in
  (train = [] <-> (n < 5)%nat)
  /\ ((1 <= n)%nat -> test <> [])
  /\ List.length test = (if (n <? 5)%nat then n else Nat.div n 5).
Proof.
  intros Hl Hb. destruct (Nat.ltb_spec n 5) as [Hn|Hn].
  - rewrite (split_indices_small n indices Hn).
    split; [tauto|]. split; [|exact Hl].
    intros H1 ->. cbn in Hl. lia.
  - rewrite (split_indices_large n indices Hl Hn Hb).
    assert (Hk : (1 <= Nat.div n 5 <= n)%nat).
    { split; [apply Nat.div_le_lower_bound; lia
             |apply Nat.Div0.div_le_upper_bound; lia]. }
    assert (Hq : (Nat.div n 5 * 5 <= n)%nat).
    { pose proof (Nat.div_mod_eq n 5). lia. }
    split; [|split].
    + split; [|lia]. intros E.
      assert (L : List.length (firstn (n - Nat.div n 5) indices) = 0%nat)
        by (rewrite E; reflexivity).
      rewrite length_firstn, Hl in L. lia.
    + intros _ E.
      assert (L : List.length (skipn (n - Nat.div n 5) indices) = 0%nat)
        by (rewrite E; reflexivity).
      rewrite length_skipn, Hl in L. lia.
    + rewrite length_skipn, Hl. lia.
Qed.

Lemma X2_training_empty_below_five_witness :
  let '(train, test) := split_indices 4 [3; 1; 0; 2]%nat in
  (train = [] <-> (4 < 5)%nat)
  /\ ((1 <= 4)%nat -> test <> [])
  /\ List.length test = (if (4 <? 5)%nat then 4 else Nat.div 4 5)%nat.
Proof.
  apply (X2_training_empty_below_five 4 [3; 1; 0; 2]%nat); reflexivity.
Defined.

(** X3: for every length below 2^50 the float computation
    [int(0.2 * n)] of line 175 is the integer quotient of [n] by five: the
    rounding of the binary64 product never carries it across an integer. *)
Theorem X3_test_count_is_integer_fifth (n : Z) :
  0 <= n < 2 ^ 50 ->
  int_0_2_times n = n / 5
  /\ 5 * int_0_2_times n <= n < 5 * int_0_2_times n + 5.
Proof.
  intros H. rewrite (int_0_2_times_div5 n H).
  split; [reflexivity|].
  pose proof (Z.div_mod n 5 ltac:(lia)).
  pose proof (Z.mod_pos_bound n 5 ltac:(lia)). lia.
Qed.

Lemma X3_test_count_is_integer_fifth_witness :
  int_0_2_times 1000003 = 1000003 / 5
  /\ 5 * int_0_2_times 1000003 <= 1000003 < 5 * int_0_2_times 1000003 + 5.
Proof.
  apply (X3_test_count_is_integer_fifth 1000003). split; [discriminate|reflexivity].
Defined.

(** ** The transform pipelines *)

(** X4: both pipelines start by converting to a tensor; the evaluation
    pipeline holds no random transform, and the training pipeline is the
    evaluation pipeline followed by one horizontal flip of probability 0.5. *)
Theorem X4_pipelines_differ_by_the_flip (train : bool) :
  hd_error (get_transform train) = Some ToTensor
  /\ existsb is_random (get_transform train) = train
  /\ get_transform train
     = (get_transform false
        ++ (if train then [RandomHorizontalFlip (1, -1)] else []))%list
  /\ (forall p, In (RandomHorizontalFlip p) (get_transform train) -> p = (1, -1)).
Proof.
  destruct train; (split; [reflexivity|]); (split; [reflexivity|]);
    (split; [reflexivity|]); intros p H; cbn in H.
  - destruct H as [H|[H|[]]]; [discriminate|]. injection H as <-. reflexivity.
  - destruct H as [H|[]]. discriminate.
Qed.

(** ** More on the steps of [main] *)

Section MoreSteps.

Context {V : Type}.
Variable cfg : settings.
Variable w : world V.

Local Open Scope list_scope.

Lemma remote_sync_good_bucket fs b :
  s3_bucket_name (FLAGS w) = Some b ->
  s3_bucket_exists w (Some b) = true ->
  remote_sync cfg w fs
  = (Val true, downloads cfg w fs,
     [S3BucketExists (Some b);
      Print ("Bucket: " ++ b ++ " exists and you have access to it")%string;
      S3DownloadDir (Some b)
        (s3_data_dir (FLAGS w) ++ "/" ++ IMAGE_DIR_NAME cfg)%string
        (Py.os_path_join (local_data_dir (FLAGS w)) (IMAGE_DIR_NAME cfg))
        (IMAGE_FILE_TYPE cfg);
      S3DownloadDir (Some b)
        (s3_data_dir (FLAGS w) ++ "/" ++ ANNOTATION_DIR_NAME cfg)%string
        (Py.os_path_join (local_data_dir (FLAGS w)) (ANNOTATION_DIR_NAME cfg))
        (ANNOTATION_FILE_TYPE cfg);
      S3DownloadDir (Some b)
        (s3_data_dir (FLAGS w) ++ "/" ++ MANIFEST_DIR_NAME cfg)%string
        (Py.os_path_join (local_data_dir (FLAGS w)) (MANIFEST_DIR_NAME cfg))
        (MANIFEST_FILE_TYPE cfg)]).
Proof.
  intros H E.
  unfold remote_sync, downloads, bucket, data_dir, call_s3_bucket_exists,
    call_s3_download_dir.
  rewrite H. unfold bind, emit, ret, when, print, emit, get_fs, set_fs. cbn.
  rewrite E. reflexivity.
Qed.

Lemma publish_remote_log start_time fs :
  log_of (publish cfg w true start_time) fs
  = [S3UploadFiles (s3_bucket_name (FLAGS w))
       [model_state_file_path cfg w start_time]
       (s3_data_dir (FLAGS w) ++ "/" ++ MODEL_STATE_DIR_NAME cfg)%string;
     S3UploadFiles (s3_bucket_name (FLAGS w))
       [log_file_path cfg w start_time]
       (s3_data_dir (FLAGS w) ++ "/" ++ LOGS_DIR_NAME cfg)%string;
     Print "Training complete"].
Proof. reflexivity. Qed.

(** A loop that runs through has logged its epochs one after the other. *)
Lemma run_epochs_log epochs : forall ap ar fs h fs' t,
  run_epochs w epochs ap ar fs = (Val h, fs', t) ->
  t = flat_map epoch_log epochs.
Proof.
  induction epochs as [|epoch later IH]; intros ap ar fs h fs' t H.
  - cbn in H. injection H as _ _ <-. reflexivity.
  - cbn [run_epochs] in H. unfold bind at 1 2 3, emit in H. cbn in H.
    unfold index at 1, bind at 1 in H.
    destruct (nth_error (coco_stats w epoch) AVERAGE_PRECISION_STAT_INDEX)
      as [p|]; cbn in H; [|discriminate].
    unfold index at 1, bind at 1 in H.
    destruct (nth_error (coco_stats w epoch) AVERAGE_RECALL_STAT_INDEX)
      as [x|]; cbn in H; [|discriminate].
    destruct (run_epochs w later (ap ++ [p]) (ar ++ [x]) fs)
      as [[r fs2] t2] eqn:E.
    destruct r as [h'| |]; try discriminate.
    injection H as _ _ <-. cbn [flat_map epoch_log app].
    now rewrite (IH _ _ _ _ _ _ E).
Qed.



Lemma sync_event_is_no_epoch (e : event V) :
  is_sync_event e = true ->
  is_epoch_event e = false /\ is_artifact_write e = false /\ is_upload e = false.
Proof. destruct e; cbn; auto; discriminate. Qed.

Lemma epoch_event_saves_nothing (e : event V) :
  is_epoch_event e = true -> is_artifact_write e = false /\ is_upload e = false.
Proof. destruct e; cbn; auto; discriminate. Qed.

(** Neither the manifest search nor the dataset step trains, saves or
    talks to the bucket. *)
Lemma setup_logs_quiet labels manifest fs :
  Forall (fun e => is_epoch_event e = false
                   /\ is_artifact_write e = false /\ is_network_io e = false)
    (log_of (find_manifest cfg w) fs
     ++ log_of (build_datasets cfg w labels manifest) fs).
Proof.
  apply Forall_app. split.
  - rewrite find_manifest_log.
    destruct (FileUtils.get_highest_numbered_file _ _ _); repeat constructor.
  - unfold log_of. rewrite build_datasets_run. cbn [snd]. repeat constructor.
Qed.

Lemma local_event_no_fetch (e : event V) :
  is_network_io e = false -> is_fetch e = false /\ is_upload e = false.
Proof. destruct e; cbn; auto; discriminate. Qed.

(** The shape of every run, from the point where the sync step hands on:
    it stops at the label check, or it runs the loop through and saves, or
    the loop raises. *)
Lemma run_shape use_s3 fs1 t1 :
  remote_sync cfg w (disk w) = (Val use_s3, fs1, t1) ->
  let text := read_text fs1 (label_file_path cfg w) in
  let labels := ("background"%string :: Py.splitlines text) in
  let manifest :=
    FileUtils.get_highest_numbered_file
      (listdir fs1 (manifest_dir cfg w)) (manifest_dir cfg w)
      (MANIFEST_FILE_TYPE cfg) in
  let setup :=
    log_of (find_manifest cfg w) fs1
    ++ log_of (build_datasets cfg w labels manifest) fs1 in
  let head :=
    [NewModel (network (FLAGS w)) (List.length labels);
     Print ("Training for " ++ Py.str_of_int (num_epochs (FLAGS w))
            ++ " epochs")%string] in
  let epochs := Py.range (num_epochs (FLAGS w)) in
  (exists msg,
      (isfile fs1 (label_file_path cfg w) = false \/ text = ""%string)
      /\ run_main cfg w = (Returned None, t1 ++ [Print msg])
      /\ runs_to_end cfg w = false)
  \/ (isfile fs1 (label_file_path cfg w) = true /\ text <> ""%string
      /\ ((exists ap ar,
              run_epochs w epochs [] [] fs1
              = (Val (ap, ar), fs1, flat_map epoch_log epochs)
              /\ run_main cfg w
                 = (Returned None,
                    t1 ++ setup ++ head ++ flat_map epoch_log epochs
                    ++ log_of (write_artifacts cfg w (time_time w) ap ar) fs1
                    ++ log_of (publish cfg w use_s3 (time_time w)) fs1)
              /\ runs_to_end cfg w = true)
          \/ (exists te,
                 run_epochs w epochs [] [] fs1 = (Raise IndexError, fs1, te)
                 /\ Forall (fun e => is_epoch_event e = true) te
                 /\ run_main cfg w = (Raised IndexError, t1 ++ setup ++ head ++ te)
                 /\ runs_to_end cfg w = false))).
Proof.
  intros Hs. cbv zeta.
  destruct (load_labels_cases cfg w fs1) as [(msg & Hl & Hno)|(Hl & Hf & Hne)].
  - left. exists msg. split; [exact Hno|].
    split; [exact (main_stops_at_labels cfg w _ _ _ _ Hs Hl)|].
    unfold runs_to_end, main. unfold bind at 1. rewrite Hs.
    unfold bind at 1. rewrite Hl. reflexivity.
  - right. split; [exact Hf|]. split; [exact Hne|].
    destruct (main_with_labels cfg w _ _ _ _ Hs Hl)
      as (r & te & He & Hte & Hr & Hmain).
    destruct r as [[ap ar]|v|e].
    + left. exists ap, ar.
      pose proof (run_epochs_log _ _ _ _ _ _ _ He) as ->.
      split; [exact He|]. unfold run_main, runs_to_end. rewrite Hmain.
      split; [|reflexivity]. cbn [app]. rewrite <- !app_assoc. reflexivity.
    + now destruct (Hr v).
    + right. exists te. destruct e. split; [exact He|]. split; [exact Hte|].
      unfold run_main, runs_to_end. rewrite Hmain.
      split; [|reflexivity]. cbn [app]. rewrite <- !app_assoc, ?app_nil_r.
      reflexivity.
Qed.

End MoreSteps.

(** ** More on whole runs *)

Section MoreRuns.

Context {V : Type}.
Variable cfg : settings.
Variable w : world V.

Local Open Scope list_scope.

(** Whatever follows the sync step never goes back to reading the bucket. *)
Lemma after_sync_no_fetch use_s3 fs1 t1 :
  remote_sync cfg w (disk w) = (Val use_s3, fs1, t1) ->
  exists rest,
    snd (run_main cfg w) = t1 ++ rest
    /\ Forall (fun e => is_fetch e = false) rest.
Proof.
  intros Hs.
  assert (Hsetup : forall labels manifest,
             Forall (fun e : event V => is_fetch e = false)
               (log_of (find_manifest cfg w) fs1
                ++ log_of (build_datasets cfg w labels manifest) fs1)).
  { intros labels manifest.
    eapply Forall_impl; [|apply setup_logs_quiet].
    intros e (_ & _ & H). now apply local_event_no_fetch. }
  destruct (run_shape cfg w _ _ _ Hs)
    as [(msg & _ & Hrun & _)
       |(_ & _ & [(ap & ar & _ & Hrun & _)|(te & _ & Hte & Hrun & _)])];
    rewrite Hrun; cbn [snd]; eexists; (split; [reflexivity|]).
  - repeat constructor.
  - apply Forall_app. split; [apply Hsetup|].
    apply Forall_app. split; [repeat constructor|].
    apply Forall_app. split.
    { apply Forall_flat_map. apply Forall_forall. intros e _. repeat constructor. }
    rewrite write_artifacts_log. apply Forall_app. split; [repeat constructor|].
    destruct use_s3; [rewrite publish_remote_log|rewrite publish_local_log];
      repeat constructor.
  - apply Forall_app. split; [apply Hsetup|].
    apply Forall_app. split; [repeat constructor|].
    eapply Forall_impl; [|exact Hte]. intros e H. now destruct e.
Qed.

(** X5: with a reachable bucket the run opens with the existence check,
    its message and the downloads of images, annotations and manifests, in
    that order and each from its own prefix into its own directory; nothing
    later reads from the bucket again, and the label file is looked up on
    the disk as the three downloads left it. *)
Theorem X5_reachable_bucket_syncs_first (b : string) :
  s3_bucket_name (FLAGS w) = Some b ->
  s3_bucket_exists w (Some b) = true ->
  disk_after_sync cfg w = downloads cfg w (disk w)
  /\ exists rest,
       snd (run_main cfg w)
       = [S3BucketExists (Some b);
          Print ("Bucket: " ++ b ++ " exists and you have access to it")%string;
          S3DownloadDir (Some b)
            (s3_data_dir (FLAGS w) ++ "/" ++ IMAGE_DIR_NAME cfg)%string
            (Py.os_path_join (local_data_dir (FLAGS w)) (IMAGE_DIR_NAME cfg))
            (IMAGE_FILE_TYPE cfg);
          S3DownloadDir (Some b)
            (s3_data_dir (FLAGS w) ++ "/" ++ ANNOTATION_DIR_NAME cfg)%string
            (Py.os_path_join (local_data_dir (FLAGS w)) (ANNOTATION_DIR_NAME cfg))
            (ANNOTATION_FILE_TYPE cfg);
          S3DownloadDir (Some b)
            (s3_data_dir (FLAGS w) ++ "/" ++ MANIFEST_DIR_NAME cfg)%string
            (Py.os_path_join (local_data_dir (FLAGS w)) (MANIFEST_DIR_NAME cfg))
            (MANIFEST_FILE_TYPE cfg)]
         ++ rest
       /\ Forall (fun e => is_fetch e = false) rest.
Proof.
  intros Hb Hx.
  pose proof (remote_sync_good_bucket cfg w (disk w) b Hb Hx) as Hs.
  split; [exact (disk_after_sync_eq cfg w _ _ _ Hs)|].
  exact (after_sync_no_fetch _ _ _ Hs).
Qed.

(** X6: a run with a reachable bucket that gets to the end of [main]
    closes with two uploads, the weights file to the model-state prefix and
    the plot to the logs prefix, and the final message; both files were
    saved before, and nothing was uploaded before. *)
Theorem X6_completed_remote_run_uploads_both (b : string) :
  s3_bucket_name (FLAGS w) = Some b ->
  s3_bucket_exists w (Some b) = true ->
  runs_to_end cfg w = true ->
  exists before,
    snd (run_main cfg w)
    = before
      ++ [S3UploadFiles (Some b) [model_state_file_path cfg w (time_time w)]
            (s3_data_dir (FLAGS w) ++ "/" ++ MODEL_STATE_DIR_NAME cfg)%string;
          S3UploadFiles (Some b) [log_file_path cfg w (time_time w)]
            (s3_data_dir (FLAGS w) ++ "/" ++ LOGS_DIR_NAME cfg)%string;
          Print "Training complete"]
    /\ In (TorchSave (model_state_file_path cfg w (time_time w))) before
    /\ In (PltSavefig (log_file_path cfg w (time_time w))) before
    /\ Forall (fun e => is_upload e = false) before.
Proof.
  intros Hb Hx Hend.
  pose proof (remote_sync_good_bucket cfg w (disk w) b Hb Hx) as Hs.
  destruct (run_shape cfg w _ _ _ Hs)
    as [(msg & _ & _ & Hno)
       |(_ & _ & [(ap & ar & _ & Hrun & _)|(te & _ & _ & _ & Hno)])];
    try congruence.
  rewrite Hrun. cbn [snd]. rewrite publish_remote_log, Hb, write_artifacts_log.
  eexists. split; [rewrite !app_assoc; reflexivity|].
  split; [|split].
  - apply in_or_app. right. cbn. auto.
  - apply in_or_app. right. cbn. auto 12.
  - match goal with
    | |- context [log_of (build_datasets cfg w ?l ?m) ?fs] =>
        pose proof (setup_logs_quiet cfg w l m fs) as Hq
    end.
    apply Forall_app in Hq as [Hq1 Hq2].
    assert (Hep : Forall (fun e : event V => is_upload e = false)
                    (flat_map epoch_log (Py.range (num_epochs (FLAGS w))))).
    { apply Forall_flat_map. apply Forall_forall. intros e _. repeat constructor. }
    repeat (apply Forall_app; split); try exact Hep;
      try (eapply Forall_impl; [|eassumption];
           intros e (_ & _ & H); now apply local_event_no_fetch);
      repeat constructor.
Qed.

(** X7: a run that does not get to the end of [main], because it stopped
    at the label check or because the loop raised, has saved neither
    weights nor plot and has uploaded nothing. *)
Theorem X7_unfinished_run_leaves_nothing :
  runs_to_end cfg w = false ->
  Forall (fun e => is_artifact_write e = false /\ is_upload e = false)
    (snd (run_main cfg w)).
Proof.
  intros Hend.
  destruct (remote_sync_val cfg w (disk w)) as (use_s3 & fs1 & t1 & Hs & Ht1 & _).
  assert (Ht1' : Forall (fun e : event V =>
                           is_artifact_write e = false /\ is_upload e = false) t1).
  { eapply Forall_impl; [|exact Ht1]. intros e H.
    now apply sync_event_is_no_epoch in H. }
  destruct (run_shape cfg w _ _ _ Hs)
    as [(msg & _ & Hrun & _)
       |(_ & _ & [(ap & ar & _ & _ & Hyes)|(te & _ & Hte & Hrun & _)])];
    try congruence; rewrite Hrun; cbn [snd].
  - apply Forall_app. split; [exact Ht1'|repeat constructor].
  - apply Forall_app. split; [exact Ht1'|].
    apply Forall_app. split.
    { eapply Forall_impl; [|apply setup_logs_quiet].
      intros e (_ & Ha & H). split; [exact Ha|]. now apply local_event_no_fetch. }
    apply Forall_app. split; [repeat constructor|].
    eapply Forall_impl; [|exact Hte]. apply epoch_event_saves_nothing.
Qed.




(** X11: in a run that gets to the end of [main] the epochs of
    [range(num_epochs)] come in increasing order between the announcement
    of the training and the saving of the weights; each one trains, steps
    the learning-rate schedule and evaluates, in that order, and nothing
    else happens in between. *)
Theorem X11_epochs_run_in_order_before_saving :
  runs_to_end cfg w = true ->
  exists before after,
    snd (run_main cfg w)
    = before
      ++ [Print ("Training for " ++ Py.str_of_int (num_epochs (FLAGS w))
                 ++ " epochs")%string]
      ++ flat_map epoch_log (Py.range (num_epochs (FLAGS w)))
      ++ [CreateOutputDir
            (Py.os_path_join (local_data_dir (FLAGS w)) (MODEL_STATE_DIR_NAME cfg));
          TorchSave (model_state_file_path cfg w (time_time w))]
      ++ after
    /\ Forall (fun e => is_epoch_event e = false) before
    /\ Forall (fun e => is_epoch_event e = false) after.
Proof.
  intros Hend.
  destruct (remote_sync_val cfg w (disk w)) as (use_s3 & fs1 & t1 & Hs & Ht1 & _).
  destruct (run_shape cfg w _ _ _ Hs)
    as [(msg & _ & _ & Hno)
       |(_ & _ & [(ap & ar & _ & Hrun & _)|(te & _ & _ & _ & Hno)])];
    try congruence.
  rewrite Hrun. cbn [snd]. rewrite write_artifacts_log.
  match goal with
  | |- context [log_of (build_datasets cfg w ?l ?m) ?fs] =>
      pose proof (setup_logs_quiet cfg w l m fs) as Hq;
      exists (t1 ++ (log_of (find_manifest cfg w) fs
                     ++ log_of (build_datasets cfg w l m) fs)
              ++ [NewModel (network (FLAGS w))
                    (List.length ("background"%string
                       :: Py.splitlines (read_text fs1 (label_file_path cfg w))))])
  end.
  eexists. split; [|split].
  - rewrite <- !app_assoc. cbn [app]. unfold data_dir. reflexivity.
  - apply Forall_app. split.
    + eapply Forall_impl; [|exact Ht1]. intros e H.
      now apply sync_event_is_no_epoch in H.
    + apply Forall_app. split; [|repeat constructor].
      eapply Forall_impl; [|exact Hq]. intros e (H & _). exact H.
  - destruct use_s3; [rewrite publish_remote_log|rewrite publish_local_log];
      repeat constructor.
Qed.


(** X13: the label check turns away a missing file and an empty text and
    nothing else; any other text goes on as "background" followed by its
    lines, so a file that holds one empty line yields a label with an empty
    name. *)
Theorem X13_label_check_only_rejects_empty_text (fs : filesystem) :
  load_labels cfg w fs
  = (if isfile fs (label_file_path cfg w) then
       if String.eqb (read_text fs (label_file_path cfg w)) "" then
         (Return None, fs,
          [Print ("No label categories found in " ++ label_file_path cfg w)%string])
       else
         (Val ("background"%string
                 :: Py.splitlines (read_text fs (label_file_path cfg w))), fs, [])
     else
       (Return None, fs,
        [Print ("Missing file " ++ label_file_path cfg w)%string]))
  /\ (isfile fs (label_file_path cfg w) = true ->
      read_text fs (label_file_path cfg w) = String "010" "" ->
      load_labels cfg w fs = (Val ["background"%string; ""%string], fs, [])).
Proof.
  split.
  - destruct (isfile fs (label_file_path cfg w)) eqn:Hf.
    + destruct (String.eqb_spec (read_text fs (label_file_path cfg w)) "")
        as [He|He].
      * now apply load_labels_empty.
      * apply load_labels_lines; [exact Hf|]. now rewrite splitlines_nil.
    + now apply load_labels_missing.
  - intros Hf Ht. rewrite (load_labels_lines cfg w fs Hf).
    + rewrite Ht. reflexivity.
    + rewrite Ht. discriminate.
Qed.

(** X14: when manifest discovery finds a file and the label file is
    usable, nothing is printed about manifests: right after the sync step
    come the device line and the two dataset constructions, both on the
    path found. *)
Theorem X14_found_manifest_goes_to_both_datasets (path : string) :
  let fs := disk_after_sync cfg w in
  isfile fs (label_file_path cfg w) = true ->
  read_text fs (label_file_path cfg w) <> ""%string ->
  get_newest_manifest_path (V:=V) cfg (manifest_dir cfg w) fs
  = (Val (Some path), fs, []) ->
  exists after,
    snd (run_main cfg w)
    = log_of (remote_sync cfg w) (disk w)
      ++ [Print ("Using device: " ++ " "
                 ++ (if cuda_is_available w then "cuda" else "cpu"))%string;
          NewBojaDataSet (image_dir cfg w) (annotation_dir cfg w) (Some path) true
            ("background"%string
               :: Py.splitlines (read_text fs (label_file_path cfg w)));
          NewBojaDataSet (image_dir cfg w) (annotation_dir cfg w) (Some path) false
            ("background"%string
               :: Py.splitlines (read_text fs (label_file_path cfg w)))]
      ++ after.
Proof.
  cbv zeta. intros Hf Hne Hsome.
  destruct (remote_sync_val cfg w (disk w)) as (use_s3 & fs1 & t1 & Hs & _ & _).
  rewrite (disk_after_sync_eq cfg w _ _ _ Hs) in *.
  unfold get_newest_manifest_path, bind, get_fs, ret in Hsome. cbn in Hsome.
  injection Hsome as Hsome.
  unfold log_of at 1. rewrite Hs. cbn [snd].
  destruct (build_datasets_log cfg w
              ("background"%string
                 :: Py.splitlines (read_text fs1 (label_file_path cfg w)))
              (Some path) fs1) as (rest & Hlog & _).
  destruct (run_shape cfg w _ _ _ Hs)
    as [(msg & [Hx|Hx] & _)
       |(_ & _ & [(ap & ar & _ & Hrun & _)|(te & _ & _ & Hrun & _)])];
    try congruence; rewrite Hrun; cbn [snd];
    rewrite find_manifest_log, Hsome, Hlog; cbn [app];
    eexists; rewrite <- ?app_assoc; cbn [app]; reflexivity.
Qed.

(** X15: with a usable label file, when [randperm] hands back a
    permutation of the indices of the training dataset, the training and
    the test subset are built on two lists that make up that permutation:
    no index is in both and every index is in one. *)
Theorem X15_subsets_share_no_index :
  let fs := disk_after_sync cfg w in
  let labels :=
    ("background"%string :: Py.splitlines (read_text fs (label_file_path cfg w))) in
  let manifest :=
    FileUtils.get_highest_numbered_file
      (listdir fs (manifest_dir cfg w)) (manifest_dir cfg w)
      (MANIFEST_FILE_TYPE cfg) in
  let n := len_BojaDataSet w (image_dir cfg w) (annotation_dir cfg w)
             manifest labels in
  isfile fs (label_file_path cfg w) = true ->
  read_text fs (label_file_path cfg w) <> ""%string ->
  Permutation (randperm w n) (seq 0 n) ->
  exists train test,
    In (NewSubset true train) (snd (run_main cfg w))
    /\ In (NewSubset false test) (snd (run_main cfg w))
    /\ train ++ test = randperm w n
    /\ (forall i, In i train -> ~ In i test)
    /\ (forall i, (i < n)%nat -> In i train \/ In i test).
Proof.
  cbv zeta. intros Hf Hne Hperm.
  destruct (remote_sync_val cfg w (disk w)) as (use_s3 & fs1 & t1 & Hs & _ & _).
  rewrite (disk_after_sync_eq cfg w _ _ _ Hs) in *.
  match type of Hperm with
  | Permutation (randperm w ?n) _ =>
      pose proof (split_indices_cover n (randperm w n)) as Hc;
      pose proof (split_indices_partition n (randperm w n) Hperm) as Hp;
      exists (fst (split_indices n (randperm w n))),
             (snd (split_indices n (randperm w n)))
  end.
  match goal with
  | |- context [split_indices ?n ?l] =>
      destruct (split_indices n l) as [train test] eqn:Esplit
  end.
  cbn [fst snd] in *. destruct Hp as (_ & Hdis & Hall).
  match goal with
  | |- context [len_BojaDataSet w _ _ ?m ?l] =>
      pose proof (build_datasets_feeds_split cfg w l m fs1) as Hin
  end.
  cbv zeta in Hin. rewrite Esplit in Hin. cbn [fst snd] in Hin.
  destruct Hin as [Hin1 Hin2].
  assert (Htrace : forall e,
             In e (log_of (build_datasets cfg w
                             ("background"%string
                                :: Py.splitlines
                                     (read_text fs1 (label_file_path cfg w)))
                             (FileUtils.get_highest_numbered_file
                                (listdir fs1 (manifest_dir cfg w))
                                (manifest_dir cfg w) (MANIFEST_FILE_TYPE cfg)))
                     fs1) ->
             In e (snd (run_main cfg w))).
  { intros e He.
    destruct (run_shape cfg w _ _ _ Hs)
      as [(msg & [Hx|Hx] & _)
         |(_ & _ & [(ap & ar & _ & Hrun & _)|(te & _ & _ & Hrun & _)])];
      try congruence; rewrite Hrun; cbn [snd];
      apply in_or_app; right; apply in_or_app; left;
      apply in_or_app; right; exact He. }
  split; [apply Htrace; exact Hin1|]. split; [apply Htrace; exact Hin2|].
  split; [exact Hc|]. split; [exact Hdis|exact Hall].
Qed.

End MoreRuns.

(** ** The further properties on the sample runs *)

Lemma X5_reachable_bucket_syncs_first_witness :
  listdir (disk_after_sync Sample.config Sample2.synced_run) "data/manifests"
  = ["a_11.json"; "a_3.json"; "a_10.json"; "a_2.json"]
  /\ exists rest,
       snd (run_main Sample.config Sample2.synced_run)
       = ([S3BucketExists (Some "my-bucket");
           Print "Bucket: my-bucket exists and you have access to it";
           S3DownloadDir (Some "my-bucket") "boja/images" "data/images" "jpg";
           S3DownloadDir (Some "my-bucket") "boja/annotations" "data/annotations"
             "xml";
           S3DownloadDir (Some "my-bucket") "boja/manifests" "data/manifests"
             "json"]
          ++ rest)%list
       /\ Forall (fun e => is_fetch e = false) rest.
Proof.
  destruct (X5_reachable_bucket_syncs_first Sample.config Sample2.synced_run
              "my-bucket") as (Hdisk & rest & Hlog & Hrest).
  - reflexivity.
  - reflexivity.
  - split; [rewrite Hdisk; reflexivity|].
    exists rest. split; [exact Hlog|exact Hrest].
Defined.

Lemma X6_completed_remote_run_uploads_both_witness :
  exists before,
    snd (run_main Sample.config Sample2.synced_run)
    = (before
       ++ [S3UploadFiles (Some "my-bucket")
             ["data/modelstates/1590000000-fasterrcnn_resnet50.pt"]
             "boja/modelstates";
           S3UploadFiles (Some "my-bucket")
             ["data/logs/1590000000-fasterrcnn_resnet50.jpg"] "boja/logs";
           Print "Training complete"])%list
    /\ Forall (fun e => is_upload e = false) before.
Proof.
  destruct (X6_completed_remote_run_uploads_both Sample.config
              Sample2.synced_run "my-bucket")
    as (before & Hlog & _ & _ & Hbefore).
  - reflexivity.
  - reflexivity.
  - reflexivity.
  - exists before. split; [exact Hlog|exact Hbefore].
Defined.

Lemma X7_unfinished_run_leaves_nothing_witness :
  Forall (fun e => is_artifact_write e = false /\ is_upload e = false)
    (snd (run_main Sample.config Sample2.synced_no_label_run))
  /\ Forall (fun e => is_artifact_write e = false /\ is_upload e = false)
       (snd (run_main Sample.config Sample2.short_stats_run)).
Proof.
  split.
  - apply (X7_unfinished_run_leaves_nothing Sample.config
             Sample2.synced_no_label_run). reflexivity.
  - apply (X7_unfinished_run_leaves_nothing Sample.config
             Sample2.short_stats_run). reflexivity.
Defined.



Lemma X11_epochs_run_in_order_before_saving_witness :
  exists before after,
    snd (run_main Sample.config Sample.local_run)
    = (before
       ++ [Print "Training for 2 epochs"]
       ++ [TrainOneEpoch 0; LrSchedulerStep; Evaluate 0;
           TrainOneEpoch 1; LrSchedulerStep; Evaluate 1]
       ++ [CreateOutputDir "data/modelstates";
           TorchSave "data/modelstates/1590000000-fasterrcnn_resnet50.pt"]
       ++ after)%list
    /\ Forall (fun e => is_epoch_event e = false) before
    /\ Forall (fun e => is_epoch_event e = false) after.
Proof.
  apply (X11_epochs_run_in_order_before_saving Sample.config Sample.local_run).
  reflexivity.
Defined.


Lemma X14_found_manifest_goes_to_both_datasets_witness :
  exists after,
    snd (run_main Sample.config Sample2.synced_run)
    = (log_of (remote_sync Sample.config Sample2.synced_run) Sample.full_disk
       ++ [Print "Using device:  cuda";
           NewBojaDataSet "data/images" "data/annotations"
             (Some "data/manifests/a_11.json") true ["background"; "cat"; "dog"];
           NewBojaDataSet "data/images" "data/annotations"
             (Some "data/manifests/a_11.json") false ["background"; "cat"; "dog"]]
       ++ after)%list.
Proof.
  apply (X14_found_manifest_goes_to_both_datasets Sample.config
           Sample2.synced_run "data/manifests/a_11.json").
  - reflexivity.
  - vm_compute. discriminate.
  - reflexivity.
Defined.

Lemma X15_subsets_share_no_index_witness :
  exists train test,
    In (NewSubset true train) (snd (run_main Sample.config Sample2.no_epoch_run))
    /\ In (NewSubset false test)
         (snd (run_main Sample.config Sample2.no_epoch_run))
    /\ (train ++ test)%list = rev (seq 0 11)
    /\ (forall i, In i train -> ~ In i test)
    /\ (forall i, (i < 11)%nat -> In i train \/ In i test).
Proof.
  apply (X15_subsets_share_no_index Sample.config Sample2.no_epoch_run).
  - reflexivity.
  - vm_compute. discriminate.
  - apply Permutation_sym, Permutation_rev.
Defined.
